(** * Barcode detection service: a shallow embedding of
      [src/services/barcodeDetectionService.ts]

    The service is a class of static methods around one static flag,
    [isInitialized], and two external decoders: the Quagga linear-barcode
    library (callback based, with an event emitter for live detections) and
    the jsQR matrix-code decoder (a pure function).

    The embedding keeps the shape of the source:
    - the static flag and the part of Quagga's state the service can observe
      (whether the live pipeline runs, and the list of "detected"
      subscriptions) form the [State];
    - every method is a computation in a small state-and-output monad [M];
      its output is the list of calls it made to the decoders and to the
      consumer's callback, in program order;
    - a promise is represented by the way it settles: [Fulfilled],
      [Rejected] or [Pending] (never settled);
    - what the browser and the decoders answer is given by the variables of
      section [Service].

    Console output is not modelled. *)

From Stdlib Require Import String List Bool ZArith Lia.
Import ListNotations.
Local Open Scope string_scope.
Local Open Scope list_scope.

(** ** Data model *)

(** [interface BarcodeDetectionResult]: the three optional members are
    absent ([None]) when the object literal does not list them. *)
Record BarcodeDetectionResult : Type := mkResult {
  success : bool;
  barcode : option string;
  error : option string;
  format : option string
}.

(** A JavaScript error value, identified by its name. *)
Definition JsError : Type := string.

(** How a call that may throw completes. *)
Inductive Completion (A : Type) : Type :=
| Returned (a : A)
| Threw (e : JsError).
Arguments Returned {A} a.
Arguments Threw {A} e.

(** How the promise returned by an [async] method settles. *)
Inductive Settled (A : Type) : Type :=
| Fulfilled (a : A)
| Rejected (e : JsError)
| Pending.
Arguments Fulfilled {A} a.
Arguments Rejected {A} e.
Arguments Pending {A}.

(** [ImageData]: what [ctx.getImageData] returns. *)
Record ImageData : Type := mkImageData {
  data : list Byte.byte;
  width : Z;
  height : Z
}.

(** The consumer's [onDetected] function, identified by a number; calling it
    is recorded in the output of the computation. *)
Definition Callback : Type := nat.

(** ** The jsQR interface *)

Module JsQR.
(** The member of jsQR's result the service reads. *)
Record QRCode : Type := mkQRCode { data : string }.
End JsQR.

(** ** The Quagga interface *)

Module Quagga.

(** [data.codeResult] of a detection. *)
Record CodeResult : Type := mkCodeResult {
  code : string;
  format : string
}.

(** The object handed to the callback of [decodeSingle]; [codeResult] is
    missing when nothing was decoded. *)
Record ResultObject : Type := mkResultObject {
  codeResult : option CodeResult
}.

(** The configuration object of [Quagga.init] (lines 24-55). *)
Record InitConfig : Type := mkInitConfig {
  init_name : string;
  init_type : string;
  init_target : string;
  init_width : Z;
  init_height : Z;
  init_facingMode : string;
  init_patchSize : string;
  init_halfSample : bool;
  init_numOfWorkers : Z;
  init_frequency : Z;
  init_readers : list string;
  init_locate : bool
}.

(** The configuration object of [Quagga.decodeSingle] (lines 154-171 and
    240-257). *)
Record SingleConfig : Type := mkSingleConfig {
  single_src : string;
  single_numOfWorkers : Z;
  single_size : Z;
  single_readers : list string;
  single_locate : bool
}.

End Quagga.

(** The function the service registers with [Quagga.onDetected] (lines
    86-97): a closure over the consumer's callback. *)
Inductive Handler : Type :=
| DetectedHandler (onDetected : Callback).

(** What a computation does to the outside, in program order. *)
Inductive Event : Type :=
| QuaggaInit (cfg : Quagga.InitConfig)
| QuaggaStart
| QuaggaStop
| QuaggaOnDetected (h : Handler)
| QuaggaOffDetected
| QuaggaDecodeSingle (cfg : Quagga.SingleConfig)
| JsQRCall (img : ImageData)
| Invoke (cb : Callback) (r : BarcodeDetectionResult).

(** ** State *)

Record State : Type := mkState {
  isInitialized : bool;          (* BarcodeDetectionService.isInitialized *)
  running : bool;                (* Quagga: the live pipeline is started *)
  detected : list Handler        (* Quagga: subscriptions to "detected" *)
}.

(** The state when the module is loaded ([isInitialized = false], line 12). *)
Definition initial : State :=
  {| isInitialized := false; running := false; detected := [] |}.

(** ** The monad of the service's methods *)

Definition M (A : Type) : Type := State -> A * State * list Event.

Definition ret {A : Type} (a : A) : M A := fun s => (a, s, []).

Definition bind {A B : Type} (m : M A) (k : A -> M B) : M B :=
  fun s =>
    let '(a, s1, o1) := m s in
    let '(b, s2, o2) := k a s1 in
    (b, s2, o1 ++ o2).

Definition gets {A : Type} (f : State -> A) : M A := fun s => (f s, s, []).
Definition modify (f : State -> State) : M unit := fun s => (tt, f s, []).
Definition emit (e : Event) : M unit := fun s => (tt, s, [e]).

Declare Scope service_scope.
Delimit Scope service_scope with service.
Notation "x <- m ;; k" := (bind m (fun x => k))
  (at level 61, m at next level, right associativity) : service_scope.
Notation "m ;; k" := (bind m (fun _ => k))
  (at level 61, right associativity) : service_scope.
Local Open Scope service_scope.

Definition value {A : Type} (r : A * State * list Event) : A := fst (fst r).
Definition state {A : Type} (r : A * State * list Event) : State := snd (fst r).
Definition output {A : Type} (r : A * State * list Event) : list Event := snd r.

(** ** Quagga's operations, as far as the service observes them *)

Module QuaggaOps.

(** [Quagga.start()]. *)
Definition start : M unit :=
  emit QuaggaStart ;;
  modify (fun s => {| isInitialized := isInitialized s;
                      running := true;
                      detected := detected s |}).

(** [Quagga.stop()]. *)
Definition stop : M unit :=
  emit QuaggaStop ;;
  modify (fun s => {| isInitialized := isInitialized s;
                      running := false;
                      detected := detected s |}).

(** [Quagga.onDetected(h)]: one more subscription, after the others. *)
Definition onDetected (h : Handler) : M unit :=
  emit (QuaggaOnDetected h) ;;
  modify (fun s => {| isInitialized := isInitialized s;
                      running := running s;
                      detected := detected s ++ [h] |}).

(** [Quagga.offDetected()] with no argument: every subscription goes. *)
Definition offDetected : M unit :=
  emit QuaggaOffDetected ;;
  modify (fun s => {| isInitialized := isInitialized s;
                      running := running s;
                      detected := [] |}).

End QuaggaOps.

(** ** The constants of the source *)

(** The readers of the live pipeline (lines 42-52). *)
Definition liveReaders : list string :=
  ["code_128_reader"; "ean_reader"; "ean_8_reader"; "code_39_reader";
   "code_39_vin_reader"; "codabar_reader"; "upc_reader"; "upc_e_reader";
   "i2of5_reader"].

(** The readers of a single decode (lines 161-168 and 247-254). *)
Definition singleReaders : list string :=
  ["code_128_reader"; "ean_reader"; "ean_8_reader"; "code_39_reader";
   "upc_reader"; "upc_e_reader"].

Definition initConfig (elementId : string) : Quagga.InitConfig :=
  {| Quagga.init_name := "Live";
     Quagga.init_type := "LiveStream";
     Quagga.init_target := "#" ++ elementId;
     Quagga.init_width := 640;
     Quagga.init_height := 480;
     Quagga.init_facingMode := "environment";
     Quagga.init_patchSize := "medium";
     Quagga.init_halfSample := true;
     Quagga.init_numOfWorkers := 2;
     Quagga.init_frequency := 10;
     Quagga.init_readers := liveReaders;
     Quagga.init_locate := true |}.

Definition singleConfig (src : string) : Quagga.SingleConfig :=
  {| Quagga.single_src := src;
     Quagga.single_numOfWorkers := 0;
     Quagga.single_size := 800;
     Quagga.single_readers := singleReaders;
     Quagga.single_locate := true |}.

(** The result objects the source builds. *)
Definition failure (msg : string) : BarcodeDetectionResult :=
  {| success := false; barcode := None; error := Some msg; format := None |}.

Definition found (code fmt : string) : BarcodeDetectionResult :=
  {| success := true; barcode := Some code; error := None; format := Some fmt |}.

(** JavaScript truthiness of a string: the empty string is falsy. *)
Definition truthy (s : string) : bool := negb (String.eqb s "").

(** ** The browser objects the service is handed *)

(** An [HTMLCanvasElement], by what the service asks of it:
    [getContext('2d')] (which may be [null]),
    [ctx.getImageData(0, 0, width, height)] (which may throw) and
    [toDataURL()]. *)
Record HTMLCanvasElement : Type := mkCanvas {
  has2d : bool;
  getImageData : Completion ImageData;
  toDataURL : string
}.

(** A [File]. *)
Record File : Type := mkFile {
  name : string;
  bytes : list Byte.byte
}.

(** An [HTMLImageElement] whose [onload] has fired. *)
Record HTMLImageElement : Type := mkImage {
  img_width : Z;
  img_height : Z;
  img_pixels : list Byte.byte
}.

(** ** The scanner component: [src/types] and the state of
      [src/component/BarcodeScannerWithAPI.tsx]

    The handlers of the component are modelled by what they do, in program
    order: the setters of its [useState] cells they call, the requests they
    send and the calls they make on the event and on the file input.  The
    same [processBarcode], [fetchItems] and [clearItems] are in
    [BarcodeScanner.tsx] and [EnhancedBarcodeScanner.tsx]. *)

Module Types.

(** [interface ScannedItem]; [Number] stands for JavaScript's numbers, which
    no handler computes with. *)
Record ScannedItem (Number : Type) : Type := mkScannedItem {
  id : Number;
  barcode : string;
  name : string;
  price : Number;
  timestamp : string
}.
Arguments mkScannedItem {Number} id barcode name price timestamp.
Arguments id {Number} s.
Arguments barcode {Number} s.
Arguments name {Number} s.
Arguments price {Number} s.
Arguments timestamp {Number} s.

(** [interface ApiResponse<T>]. *)
Record ApiResponse (T : Type) : Type := mkApiResponse {
  data : option T;
  error : option string;
  message : option string
}.
Arguments mkApiResponse {T} data error message.
Arguments data {T} a.
Arguments error {T} a.
Arguments message {T} a.

End Types.

(** The requests the component sends to [http://localhost:5000]. *)
Inductive Request : Type :=
| PostScan (barcode : string)    (* POST /api/scan with body {barcode} *)
| GetItems                       (* GET /api/items *)
| DeleteItems.                   (* DELETE /api/items *)

(** What [await fetch(...)] and then [await response.json()] come to:
    [fetch] rejects, or it gives a response whose [ok] is known and whose
    body either fails to parse or parses to an [ApiResponse]. *)
Inductive Reply (T : Type) : Type :=
| NetworkError (e : JsError)
| BadBody (ok : bool) (e : JsError)
| Body (ok : bool) (result : Types.ApiResponse T).
Arguments NetworkError {T} e.
Arguments BadBody {T} ok e.
Arguments Body {T} ok result.

Inductive ScanMode : Type := Manual | Camera | Upload.

(** The [useState] cells of the component (lines 14-21). *)
Record Scanner (Item : Type) : Type := mkScanner {
  barcodeInput : string;
  scannedItems : list Item;
  isLoading : bool;
  message : string;
  cameraActive : bool;
  selectedFile : option File;
  scanMode : ScanMode;
  cameraInitialized : bool
}.
Arguments mkScanner {Item}.
Arguments barcodeInput {Item} s.
Arguments scannedItems {Item} s.
Arguments isLoading {Item} s.
Arguments message {Item} s.
Arguments cameraActive {Item} s.
Arguments selectedFile {Item} s.
Arguments scanMode {Item} s.
Arguments cameraInitialized {Item} s.

(** The component as it mounts. *)
Definition mounted {Item : Type} : Scanner Item :=
  {| barcodeInput := ""; scannedItems := []; isLoading := false;
     message := ""; cameraActive := false; selectedFile := None;
     scanMode := Manual; cameraInitialized := false |}.

(** What a handler does. *)
Inductive Action (Item : Type) : Type :=
| setBarcodeInput (v : string)
| setScannedItems (v : list Item)
| prependScannedItem (item : Item)   (* setScannedItems(prev => [item, ...prev]) *)
| setIsLoading (v : bool)
| setMessage (v : string)
| setCameraActive (v : bool)
| setSelectedFile (v : option File)
| setCameraInitialized (v : bool)
| setScanMode (v : ScanMode)
| fetch (request : Request)
| preventDefault                     (* event.preventDefault() *)
| clearFileInput.                    (* fileInputRef.current.value = '' *)
Arguments setBarcodeInput {Item} v.
Arguments setScannedItems {Item} v.
Arguments prependScannedItem {Item} item.
Arguments setIsLoading {Item} v.
Arguments setMessage {Item} v.
Arguments setCameraActive {Item} v.
Arguments setSelectedFile {Item} v.
Arguments setCameraInitialized {Item} v.
Arguments setScanMode {Item} v.
Arguments fetch {Item} request.
Arguments preventDefault {Item}.
Arguments clearFileInput {Item}.

(** The state after one action: a setter replaces its cell, the other
    actions leave the state alone. *)
Definition act {Item : Type} (ui : Scanner Item) (a : Action Item)
  : Scanner Item :=
  match a with
  | setBarcodeInput v =>
      {| barcodeInput := v; scannedItems := scannedItems ui;
         isLoading := isLoading ui; message := message ui;
         cameraActive := cameraActive ui; selectedFile := selectedFile ui;
         scanMode := scanMode ui; cameraInitialized := cameraInitialized ui |}
  | setScannedItems v =>
      {| barcodeInput := barcodeInput ui; scannedItems := v;
         isLoading := isLoading ui; message := message ui;
         cameraActive := cameraActive ui; selectedFile := selectedFile ui;
         scanMode := scanMode ui; cameraInitialized := cameraInitialized ui |}
  | prependScannedItem item =>
      {| barcodeInput := barcodeInput ui;
         scannedItems := item :: scannedItems ui;
         isLoading := isLoading ui; message := message ui;
         cameraActive := cameraActive ui; selectedFile := selectedFile ui;
         scanMode := scanMode ui; cameraInitialized := cameraInitialized ui |}
  | setIsLoading v =>
      {| barcodeInput := barcodeInput ui; scannedItems := scannedItems ui;
         isLoading := v; message := message ui;
         cameraActive := cameraActive ui; selectedFile := selectedFile ui;
         scanMode := scanMode ui; cameraInitialized := cameraInitialized ui |}
  | setMessage v =>
      {| barcodeInput := barcodeInput ui; scannedItems := scannedItems ui;
         isLoading := isLoading ui; message := v;
         cameraActive := cameraActive ui; selectedFile := selectedFile ui;
         scanMode := scanMode ui; cameraInitialized := cameraInitialized ui |}
  | setCameraActive v =>
      {| barcodeInput := barcodeInput ui; scannedItems := scannedItems ui;
         isLoading := isLoading ui; message := message ui;
         cameraActive := v; selectedFile := selectedFile ui;
         scanMode := scanMode ui; cameraInitialized := cameraInitialized ui |}
  | setSelectedFile v =>
      {| barcodeInput := barcodeInput ui; scannedItems := scannedItems ui;
         isLoading := isLoading ui; message := message ui;
         cameraActive := cameraActive ui; selectedFile := v;
         scanMode := scanMode ui; cameraInitialized := cameraInitialized ui |}
  | setCameraInitialized v =>
      {| barcodeInput := barcodeInput ui; scannedItems := scannedItems ui;
         isLoading := isLoading ui; message := message ui;
         cameraActive := cameraActive ui; selectedFile := selectedFile ui;
         scanMode := scanMode ui; cameraInitialized := v |}
  | setScanMode v =>
      {| barcodeInput := barcodeInput ui; scannedItems := scannedItems ui;
         isLoading := isLoading ui; message := message ui;
         cameraActive := cameraActive ui; selectedFile := selectedFile ui;
         scanMode := v; cameraInitialized := cameraInitialized ui |}
  | fetch _ | preventDefault | clearFileInput => ui
  end.

Definition actAll {Item : Type} (actions : list (Action Item))
    (ui : Scanner Item) : Scanner Item :=
  fold_left act actions ui.

(** The requests among the actions of a handler. *)
Fixpoint requests {Item : Type} (actions : list (Action Item))
  : list Request :=
  match actions with
  | [] => []
  | fetch r :: rest => r :: requests rest
  | _ :: rest => requests rest
  end.

(** JavaScript's [o || d] for an optional string: a missing or empty [o]
    gives [d]. *)
Definition orDefault (o : option string) (d : string) : string :=
  match o with
  | Some v => if truthy v then v else d
  | None => d
  end.

(** The test [result.success && result.barcode] of lines 97, 141 and 176:
    the barcode the component goes on with, if any. *)
Definition usable (result : BarcodeDetectionResult) : option string :=
  if success result then
    match barcode result with
    | Some b => if truthy b then Some b else None
    | None => None
    end
  else None.

Definition isMode (m m' : ScanMode) : bool :=
  match m, m' with
  | Manual, Manual | Camera, Camera | Upload, Upload => true
  | _, _ => false
  end.

(** The function the component hands to [startCameraDetection] (lines
    96-101). *)
Definition cameraCallback : Callback := 0%nat.

(** ** A concrete browser and concrete decoders

    One-pixel RGBA images: a first byte of [x01] stands for a QR code with
    payload ITEM-42, a first byte of [x02] for an EAN-13 symbol. *)

Module Demo.

Definition qrPixels : ImageData :=
  {| data := [Byte.x01; Byte.x00; Byte.x00; Byte.xff]; width := 1; height := 1 |}.

Definition eanPixels : ImageData :=
  {| data := [Byte.x02; Byte.x00; Byte.x00; Byte.xff]; width := 1; height := 1 |}.

Definition blankPixels : ImageData :=
  {| data := [Byte.xff; Byte.xff; Byte.xff; Byte.xff]; width := 1; height := 1 |}.

Definition ean : Quagga.CodeResult :=
  {| Quagga.code := "4006381333931"; Quagga.format := "ean_13" |}.

Definition jsQR (d : list Byte.byte) (w h : Z) : option JsQR.QRCode :=
  match d with
  | Byte.x01 :: _ => Some {| JsQR.data := "ITEM-42" |}
  | _ => None
  end.

Definition liveDecode (f : ImageData) : option Quagga.CodeResult :=
  match data f with
  | Byte.x02 :: _ => Some ean
  | _ => None
  end.

Definition decodeSingle (cfg : Quagga.SingleConfig)
  : option Quagga.ResultObject :=
  if String.eqb (Quagga.single_src cfg) "data:image/png;base64,ean"
  then Some {| Quagga.codeResult := Some ean |}
  else Some {| Quagga.codeResult := None |}.

Definition offscreen2d : bool := true.

Definition canvasOf (imageData : ImageData) : HTMLCanvasElement :=
  {| has2d := true;
     getImageData := Returned imageData;
     toDataURL :=
       match data imageData with
       | Byte.x01 :: _ => "data:image/png;base64,qr"
       | Byte.x02 :: _ => "data:image/png;base64,ean"
       | _ => "data:image/png;base64,blank"
       end |}.

Definition loadImage (file : File) : option HTMLImageElement :=
  match bytes file with
  | [] => None
  | px => Some {| img_width := 1; img_height := 1; img_pixels := px |}
  end.

Definition drawn (img : HTMLImageElement) : HTMLCanvasElement :=
  canvasOf {| data := img_pixels img;
              width := img_width img;
              height := img_height img |}.

Definition qrFile : File :=
  {| name := "item42.png"; bytes := data qrPixels |}.

Definition blankFile : File :=
  {| name := "blank.png"; bytes := data blankPixels |}.

Definition brokenFile : File :=
  {| name := "broken.png"; bytes := [] |}.

Definition noContextCanvas : HTMLCanvasElement :=
  {| has2d := false;
     getImageData := Threw "InvalidStateError";
     toDataURL := "data:," |}.

Definition taintedCanvas : HTMLCanvasElement :=
  {| has2d := true;
     getImageData := Threw "SecurityError";
     toDataURL := "data:," |}.

(** The state after a successful [initializeCamera]. *)
Definition ready : State :=
  {| isInitialized := true; running := false; detected := [] |}.

End Demo.

(** ** A concrete server and a concrete item *)

Module DemoUI.

Definition pencil : Types.ScannedItem Z :=
  {| Types.id := 1%Z; Types.barcode := "4006381333931";
     Types.name := "Pencil"; Types.price := 120%Z;
     Types.timestamp := "2024-05-01T10:00:00Z" |}.

(** The server knows the barcode. *)
Definition known : Reply (Types.ScannedItem Z) :=
  Body true {| Types.data := Some pencil; Types.error := None;
               Types.message := Some "ok" |}.

(** The server does not know the barcode. *)
Definition unknown : Reply (Types.ScannedItem Z) :=
  Body false {| Types.data := None;
                Types.error := Some "Unknown barcode";
                Types.message := None |}.

(** A file whose image loads but whose pixels cannot be read. *)
Definition unreadable (img : HTMLImageElement) : HTMLCanvasElement :=
  Demo.taintedCanvas.

(** A trimming that leaves its argument alone, for inputs without blanks. *)
Definition trim (v : string) : string := v.

(** The state with two stacked subscriptions. *)
Definition stacked : State :=
  {| isInitialized := true; running := true;
     detected := [DetectedHandler 7; DetectedHandler 7] |}.

End DemoUI.

(** ** The service *)

Section Service.

(** [jsQR(data, width, height)]: a result object or [null]. *)
Variable jsQR : list Byte.byte -> Z -> Z -> option JsQR.QRCode.

(** What [Quagga.decodeSingle] passes to its callback: a result object or
    [undefined]. *)
Variable decodeSingle : Quagga.SingleConfig -> option Quagga.ResultObject.

(** What Quagga's live pipeline decodes in one camera frame, with the
    configuration it was initialised with; [None] when it finds no code, in
    which case it publishes no "detected" event. *)
Variable liveDecode : ImageData -> option Quagga.CodeResult.

(** [document.createElement('canvas').getContext('2d')] is not [null]. *)
Variable offscreen2d : bool.

(** Loading [URL.createObjectURL(file)] into an [Image]: [Some img] when
    [onload] fires, [None] when [onerror] fires. *)
Variable loadImage : File -> option HTMLImageElement.

(** The offscreen canvas after it was sized to the image and the image was
    drawn on it (lines 132-136). *)
Variable drawn : HTMLImageElement -> HTMLCanvasElement.

(** JavaScript's numbers, as they come in the items of the server. *)
Variable JsNumber : Type.

(** [String.prototype.trim]. *)
Variable trim : string -> string.

(** *** initializeCamera (lines 17-70)

    [err] is the argument Quagga passes to the callback of [init]:
    [Some e] when the camera could not be set up, [None] otherwise.  The
    promise built at line 23 is returned without [await], so the [catch]
    of line 66 does not see its rejection: the promise of the method
    settles the way the inner one does. *)
Definition initializeCamera (elementId : string) (err : option JsError)
  : M (Settled bool) :=
  init <- gets isInitialized ;;
  if init then ret (Fulfilled true)
  else
    emit (QuaggaInit (initConfig elementId)) ;;
    match err with
    | Some e => ret (Rejected e)
    | None =>
        modify (fun s => {| isInitialized := true;
                            running := running s;
                            detected := detected s |}) ;;
        ret (Fulfilled true)
    end.

(** The body of the function registered at lines 86-97, applied to a
    detection. *)
Definition runHandler (h : Handler) (cr : Quagga.CodeResult) : M unit :=
  match h with
  | DetectedHandler onDetected =>
      emit (Invoke onDetected (found (Quagga.code cr) (Quagga.format cr)))
  end.

(** *** startCameraDetection (lines 75-98) *)
Definition startCameraDetection (onDetected : Callback) : M unit :=
  init <- gets isInitialized ;;
  if negb init then
    emit (Invoke onDetected (failure "Camera not initialized"))
  else
    QuaggaOps.start ;;
    QuaggaOps.onDetected (DetectedHandler onDetected).

(** *** stopCameraDetection (lines 103-108) *)
Definition stopCameraDetection : M unit :=
  init <- gets isInitialized ;;
  if init then
    QuaggaOps.stop ;;
    QuaggaOps.offDetected
  else ret tt.

(** *** cleanup (lines 287-290) *)
Definition cleanup : M unit :=
  stopCameraDetection ;;
  modify (fun s => {| isInitialized := false;
                      running := running s;
                      detected := detected s |}).

(** The callback given to [Quagga.decodeSingle] (lines 171-186 and
    257-272), by the result it resolves the promise with. *)
Definition singleResult (result : option Quagga.ResultObject)
  : BarcodeDetectionResult :=
  match result with
  | Some {| Quagga.codeResult := Some cr |} =>
      found (Quagga.code cr) (Quagga.format cr)
  | _ => failure "No barcode detected in image"
  end.

(** The two decoders in the order of lines 142-186 and 228-272, on the
    pixels [imageData] of [canvas]. *)
Definition decodePixels (canvas : HTMLCanvasElement) (imageData : ImageData)
  : M (Settled BarcodeDetectionResult) :=
  emit (JsQRCall imageData) ;;
  let linear :=
    (let cfg := singleConfig (toDataURL canvas) in
     emit (QuaggaDecodeSingle cfg) ;;
     ret (Fulfilled (singleResult (decodeSingle cfg)))) in
  match jsQR (data imageData) (width imageData) (height imageData) with
  | Some qrCode =>
      if truthy (JsQR.data qrCode)
      then ret (Fulfilled (found (JsQR.data qrCode) "QR_CODE"))
      else linear
  | None => linear
  end.

(** *** detectFromImageFile (lines 113-207)

    [onload] runs after the method has returned, outside its [try]: when
    [getImageData] throws there, nobody resolves the promise. *)
Definition detectFromImageFile (file : File)
  : M (Settled BarcodeDetectionResult) :=
  if negb offscreen2d then
    ret (Fulfilled (failure "Could not get canvas context"))
  else
    match loadImage file with
    | None => ret (Fulfilled (failure "Could not load image"))
    | Some img =>
        let canvas := drawn img in
        match getImageData canvas with
        | Threw _ => ret Pending
        | Returned imageData => decodePixels canvas imageData
        end
    end.

(** *** detectFromCanvas (lines 212-282) *)
Definition detectFromCanvas (canvas : HTMLCanvasElement)
  : M (Settled BarcodeDetectionResult) :=
  if negb (has2d canvas) then
    ret (Fulfilled (failure "Could not get canvas context"))
  else
    match getImageData canvas with
    | Threw _ => ret (Fulfilled (failure "Failed to process canvas"))
    | Returned imageData => decodePixels canvas imageData
    end.

(** *** The live pipeline

    One camera frame going through Quagga while the service is idle: when
    the pipeline runs and decodes a code, it calls every subscription of
    "detected", oldest first. *)
Fixpoint publish (hs : list Handler) (cr : Quagga.CodeResult) : M unit :=
  match hs with
  | [] => ret tt
  | h :: rest => runHandler h cr ;; publish rest cr
  end.

Definition frame (f : ImageData) : M unit :=
  on <- gets running ;;
  if on then
    match liveDecode f with
    | Some cr => hs <- gets detected ;; publish hs cr
    | None => ret tt
    end
  else ret tt.

(** *** Sessions

    What can happen to the service, one thing at a time: a call of one of
    its methods, or a camera frame reaching the live pipeline. *)
Inductive Op : Type :=
| InitializeCamera (elementId : string) (err : option JsError)
| StartCameraDetection (onDetected : Callback)
| StopCameraDetection
| DetectFromImageFile (file : File)
| DetectFromCanvas (canvas : HTMLCanvasElement)
| Cleanup
| CameraFrame (f : ImageData).

Definition forget {A : Type} (m : M A) : M unit := _ <- m ;; ret tt.

Definition step (op : Op) : M unit :=
  match op with
  | InitializeCamera elementId err => forget (initializeCamera elementId err)
  | StartCameraDetection onDetected => startCameraDetection onDetected
  | StopCameraDetection => stopCameraDetection
  | DetectFromImageFile file => forget (detectFromImageFile file)
  | DetectFromCanvas canvas => forget (detectFromCanvas canvas)
  | Cleanup => cleanup
  | CameraFrame f => frame f
  end.

Fixpoint run (ops : list Op) : M unit :=
  match ops with
  | [] => ret tt
  | op :: rest => step op ;; run rest
  end.

(** The states a session can be in. *)
Inductive Reachable : State -> Prop :=
| reach_initial : Reachable initial
| reach_step : forall s op, Reachable s -> Reachable (state (step op s)).

(** What the output of a computation says. *)
Definition isAcquisition (e : Event) : bool :=
  match e with QuaggaInit _ => true | _ => false end.

Definition isMatrixCall (e : Event) : bool :=
  match e with JsQRCall _ => true | _ => false end.

Definition isLinearCall (e : Event) : bool :=
  match e with QuaggaDecodeSingle _ => true | _ => false end.

Definition acquisitions (o : list Event) : nat :=
  length (filter isAcquisition o).

(** The results the consumer's callbacks were called with. *)
Fixpoint deliveries (o : list Event) : list BarcodeDetectionResult :=
  match o with
  | [] => []
  | Invoke _ r :: rest => r :: deliveries rest
  | _ :: rest => deliveries rest
  end.

(** The tests of lines 143/229 and 172/258. *)
Definition matrixYields (imageData : ImageData) : bool :=
  match jsQR (data imageData) (width imageData) (height imageData) with
  | Some qrCode => truthy (JsQR.data qrCode)
  | None => false
  end.

Definition linearYields (canvas : HTMLCanvasElement) : bool :=
  match decodeSingle (singleConfig (toDataURL canvas)) with
  | Some {| Quagga.codeResult := Some _ |} => true
  | _ => false
  end.

(** A delivery of the live pipeline as lines 92-96 build it. *)
Definition populated (r : BarcodeDetectionResult) : Prop :=
  success r = true /\ error r = None /\
  (exists c, barcode r = Some c) /\ (exists f, format r = Some f).

(** What the handler of lines 86-97 does with a detection, as an event. *)
Definition deliver (cr : Quagga.CodeResult) (h : Handler) : Event :=
  match h with
  | DetectedHandler onDetected =>
      Invoke onDetected (found (Quagga.code cr) (Quagga.format cr))
  end.

(** While the flag is down, the live pipeline is stopped and nothing is
    subscribed to it. *)
Definition Idle (s : State) : Prop :=
  isInitialized s = false -> running s = false /\ detected s = [].

(** Every operation but [cleanup] leaves a raised flag up. *)
Definition keepsFlag (op : Op) : bool :=
  match op with Cleanup => false | _ => true end.

(** The emission the specification describes for a frame of the live
    stream: the matrix-code decoder first, the linear decoder second, the
    first success wins.  Written from the specification, to be compared
    with [frame]. *)
Definition specStreamingChain (f : ImageData)
  : option BarcodeDetectionResult :=
  match jsQR (data f) (width f) (height f) with
  | Some qrCode =>
      if truthy (JsQR.data qrCode)
      then Some (found (JsQR.data qrCode) "QR_CODE")
      else option_map (fun cr => found (Quagga.code cr) (Quagga.format cr))
                      (liveDecode f)
  | None => option_map (fun cr => found (Quagga.code cr) (Quagga.format cr))
                       (liveDecode f)
  end.

(** ** The handlers of [BarcodeScannerWithAPI]

    Each handler is given what the outside answers while it runs (the reply
    of the server, the key of the event, the file of the input) and yields
    its actions in program order; the handlers that call the service are
    computations of [M]. *)

(** The items of the list, [ScannedItem]. *)
Definition Item : Type := Types.ScannedItem JsNumber.

(** *** processBarcode (lines 55-83) *)
Definition processBarcode (barcode : string) (reply : Reply Item)
  : list (Action Item) :=
  [setIsLoading true;
   setMessage ("Processing barcode: " ++ barcode);
   fetch (PostScan barcode)] ++
  match reply with
  | Body ok result =>
      match ok, Types.data result with
      | true, Some item =>
          [prependScannedItem item;
           setBarcodeInput "";
           setMessage ("Scanned: " ++ Types.name item)]
      | _, _ =>
          [setMessage (orDefault (Types.error result)
                                 "Error processing barcode")]
      end
  | NetworkError _ | BadBody _ _ =>
      [setMessage "Network error - is the server running?"]
  end ++
  [setIsLoading false].

(** *** handleBarcodeScan (lines 44-53), on the key of the event and the
    text of the input *)
Definition handleBarcodeScan (key : string) (input : string)
    (reply : Reply Item) : list (Action Item) :=
  if String.eqb key "Enter" then
    preventDefault ::
    (let barcode := trim input in
     if truthy barcode then processBarcode barcode reply else [])
  else [].

(** *** fetchItems (lines 194-205) *)
Definition fetchItems (reply : Reply (list Item)) : list (Action Item) :=
  fetch GetItems ::
  match reply with
  | Body true {| Types.data := Some items |} => [setScannedItems items]
  | _ => []
  end.

(** *** clearItems (lines 208-223) *)
Definition clearItems {T : Type} (reply : Reply T) : list (Action Item) :=
  fetch DeleteItems ::
  match reply with
  | Body true result =>
      [setScannedItems [];
       setMessage (orDefault (Types.message result) "All items cleared")]
  | _ => []
  end.

(** *** handleFileSelect (lines 155-161), on [event.target.files?.[0]] *)
Definition handleFileSelect (file : option File) : list (Action Item) :=
  match file with
  | Some f => [setSelectedFile (Some f); setMessage ("Selected: " ++ name f)]
  | None => []
  end.

(** *** startCamera (lines 85-109) *)
Definition startCamera (err : option JsError) : M (list (Action Item)) :=
  r <- initializeCamera "camera-container" err ;;
  match r with
  | Fulfilled true =>
      startCameraDetection cameraCallback ;;
      ret [setMessage "Initializing camera...";
           setCameraInitialized true;
           setCameraActive true;
           setMessage "Camera started. Point at a barcode to scan."]
  | Fulfilled false =>
      ret [setMessage "Initializing camera...";
           setMessage "Failed to initialize camera. Please check permissions."]
  | Rejected _ =>
      ret [setMessage "Initializing camera...";
           setMessage "Error accessing camera. Please check permissions."]
  | Pending => ret [setMessage "Initializing camera..."]
  end.

(** The body of the function handed to [startCameraDetection] (lines
    96-101). *)
Definition onCameraResult (result : BarcodeDetectionResult)
    (reply : Reply Item) : list (Action Item) :=
  match usable result with
  | Some b => processBarcode b reply
  | None => []
  end.

(** *** stopCamera (lines 112-117) *)
Definition stopCamera : M (list (Action Item)) :=
  stopCameraDetection ;;
  ret [setCameraActive false; setCameraInitialized false; setMessage ""].

(** *** captureAndScan (lines 120-152); [canvasRef] is the canvas of the
    component, if mounted, with the video frame drawn on it *)
Definition captureAndScan (videoMounted : bool)
    (canvasRef : option HTMLCanvasElement) (reply : Reply Item)
  : M (list (Action Item)) :=
  if negb videoMounted then ret []
  else
    match canvasRef with
    | None => ret []
    | Some canvas =>
        if negb (has2d canvas) then ret []
        else
          r <- detectFromCanvas canvas ;;
          ret ([setIsLoading true; setMessage "Scanning captured image..."] ++
               match r with
               | Fulfilled result =>
                   match usable result with
                   | Some b => processBarcode b reply
                   | None =>
                       [setMessage (orDefault (error result)
                                              "No barcode found in image")]
                   end ++ [setIsLoading false]
               | Rejected _ =>
                   [setMessage "Error processing camera image";
                    setIsLoading false]
               | Pending => []
               end)
    end.

(** *** uploadAndScan (lines 164-191), on the selected file *)
Definition uploadAndScan (selected : option File) (fileInputMounted : bool)
    (reply : Reply Item) : M (list (Action Item)) :=
  match selected with
  | None => ret [setMessage "Please select an image file first"]
  | Some file =>
      r <- detectFromImageFile file ;;
      ret ([setIsLoading true; setMessage "Scanning image..."] ++
           match r with
           | Fulfilled result =>
               match usable result with
               | Some b =>
                   processBarcode b reply ++
                   [setSelectedFile None] ++
                   (if fileInputMounted then [clearFileInput] else [])
               | None =>
                   [setMessage (orDefault (error result)
                                          "No barcode found in image")]
               end ++ [setIsLoading false]
           | Rejected _ =>
               [setMessage "Error processing image"; setIsLoading false]
           | Pending => []
           end)
  end.

(** *** The mounted component

    What can happen to the component, with the conditions under which the
    JSX of lines 225-365 renders and enables the control: a handler runs
    only when its control is there.  Each handler runs to its end before the
    next thing happens. *)
Inductive Gesture : Type :=
| ClickMode (mode : ScanMode)
| TypeText (v : string)
| PressKey (key : string) (reply : Reply Item)
| ClickStartCamera (err : option JsError)
| ClickStopCamera
| ClickCapture (videoMounted : bool) (canvasRef : option HTMLCanvasElement)
               (reply : Reply Item)
| ChooseFile (file : option File)
| ClickUpload (fileInputMounted : bool) (reply : Reply Item)
| ClickRefresh (reply : Reply (list Item))
| ClickClear (reply : Reply unit)
| CameraSees (f : ImageData) (reply : Reply Item).

(** A computation together with its own output. *)
Definition listen {A : Type} (m : M A) : M (A * list Event) :=
  fun s => let '(a, s1, o) := m s in ((a, o), s1, o).

Definition handle (g : Gesture) (ui : Scanner Item)
  : M (list (Action Item)) :=
  match g with
  | ClickMode mode => ret [setScanMode mode]
  | TypeText v =>
      if isMode (scanMode ui) Manual && negb (isLoading ui)
      then ret [setBarcodeInput v] else ret []
  | PressKey key reply =>
      if isMode (scanMode ui) Manual && negb (isLoading ui)
      then ret (handleBarcodeScan key (barcodeInput ui) reply) else ret []
  | ClickStartCamera err =>
      if isMode (scanMode ui) Camera && negb (cameraActive ui)
         && negb (isLoading ui)
      then startCamera err else ret []
  | ClickStopCamera =>
      if isMode (scanMode ui) Camera && cameraActive ui
      then stopCamera else ret []
  | ClickCapture videoMounted canvasRef reply =>
      if isMode (scanMode ui) Camera && cameraActive ui
         && negb (isLoading ui)
      then captureAndScan videoMounted canvasRef reply else ret []
  | ChooseFile file =>
      if isMode (scanMode ui) Upload && negb (isLoading ui)
      then ret (handleFileSelect file) else ret []
  | ClickUpload fileInputMounted reply =>
      if isMode (scanMode ui) Upload
         && match selectedFile ui with Some _ => true | None => false end
         && negb (isLoading ui)
      then uploadAndScan (selectedFile ui) fileInputMounted reply else ret []
  | ClickRefresh reply =>
      if negb (isLoading ui) then ret (fetchItems reply) else ret []
  | ClickClear reply =>
      if negb (isLoading ui) then ret (clearItems reply) else ret []
  | CameraSees f reply =>
      r <- listen (frame f) ;;
      ret (flat_map (fun result => onCameraResult result reply)
                    (deliveries (snd r)))
  end.

(** The life of the component: gestures while it is mounted, and
    unmounting (with the [cleanup] of lines 38-42) followed by a new
    mount. *)
Inductive Moment : Type :=
| User (g : Gesture)
| Remount.

Definition moment (m : Moment) (ui : Scanner Item) : M (Scanner Item) :=
  match m with
  | User g => actions <- handle g ui ;; ret (actAll actions ui)
  | Remount => cleanup ;; ret mounted
  end.

Fixpoint session (ms : list Moment) (ui : Scanner Item)
  : M (Scanner Item) :=
  match ms with
  | [] => ret ui
  | m :: rest => ui1 <- moment m ui ;; session rest ui1
  end.

(** The component and the service agree: the stream runs exactly when the
    component shows the camera as active, and then the callback of the
    component is the one subscription. *)
Definition InStep (ui : Scanner Item) (s : State) : Prop :=
  running s = cameraActive ui /\
  detected s =
    (if cameraActive ui then [DetectedHandler cameraCallback] else []) /\
  (cameraActive ui = true -> isInitialized s = true).

(** A result carries either a barcode with its format, or a message. *)
Definition wellFormed (r : BarcodeDetectionResult) : Prop :=
  (success r = true /\ error r = None /\
   (exists c, barcode r = Some c) /\ (exists f, format r = Some f)) \/
  (success r = false /\ barcode r = None /\ format r = None /\
   (exists m, error r = Some m /\ m <> "")).

(** The pipeline is stopped and nobody is subscribed. *)
Definition Quiet (s : State) : Prop :=
  running s = false /\ detected s = [].

(** The pipeline runs exactly when somebody is subscribed, and only with
    the flag up. *)
Definition Consistent (s : State) : Prop :=
  (running s = true <-> detected s <> []) /\
  (running s = true -> isInitialized s = true).

Definition isStart (op : Op) : bool :=
  match op with StartCameraDetection _ => true | _ => false end.

Definition setsCamera {I : Type} (a : Action I) : bool :=
  match a with setCameraActive _ => true | _ => false end.

(** The test [response.ok && result.data] of lines 70 and 199: the data the
    component takes from a reply, if any. *)
Definition accepted {T : Type} (reply : Reply T) : option T :=
  match reply with
  | Body true result => Types.data result
  | _ => None
  end.

(** The test [response.ok] of line 216, reached when the body was read. *)
Definition answeredOk {T : Type} (reply : Reply T) : bool :=
  match reply with
  | Body true _ => true
  | _ => false
  end.

Definition isCameraButton (g : Gesture) : bool :=
  match g with
  | ClickStartCamera _ | ClickStopCamera => true
  | _ => false
  end.

(** *** What the calls above leave to the caller

    [initializeCamera] takes the lookup of line 28,
    [document.querySelector('#' + elementId)], to return.  That lookup is
    evaluated inside the executor of the promise, before [Quagga.init] is
    entered, and throws when the text is not a selector.
    [initializeCameraOn] is the same method with the lookup as one more
    answer of the outside: [None] when it returns (an element or [null]),
    [Some e] when it throws [e]; the exception rejects the promise, and
    [Quagga.init] is not called. *)
Definition initializeCameraOn (lookup : option JsError) (elementId : string)
    (err : option JsError) : M (Settled bool) :=
  init <- gets isInitialized ;;
  if init then ret (Fulfilled true)
  else
    match lookup with
    | Some e => ret (Rejected e)
    | None =>
        emit (QuaggaInit (initConfig elementId)) ;;
        match err with
        | Some e => ret (Rejected e)
        | None =>
            modify (fun s => {| isInitialized := true;
                                running := running s;
                                detected := detected s |}) ;;
            ret (Fulfilled true)
        end
    end.

(** One call of [initializeCameraOn] after the other, each with its two
    answers. *)
Fixpoint attempts (elementId : string)
    (answers : list (option JsError * option JsError)) : M unit :=
  match answers with
  | [] => ret tt
  | (lookup, err) :: rest =>
      forget (initializeCameraOn lookup elementId err) ;;
      attempts elementId rest
  end.

(** The lookup of an attempt returned. *)
Definition lookedUp (a : option JsError * option JsError) : bool :=
  match fst a with None => true | Some _ => false end.

(** The attempt met an error: of the lookup, or of Quagga. *)
Definition fails (a : option JsError * option JsError) : bool :=
  match a with
  | (None, None) => false
  | _ => true
  end.

(** The calls to the two decoders in an output. *)
Definition decoderCalls (o : list Event) : list Event :=
  filter (fun e => isMatrixCall e || isLinearCall e) o.

(** Quagga publishes what [decodeSingle] decodes on the emitter of the
    live stream as well, so that the callbacks subscribed there are called
    with it; [decodePixels] does not have these calls in its output.  They
    happen when the call is reached (jsQR found nothing in the pixels), it
    reports a code, and some callback is subscribed. *)
Definition reachesSubscribers (canvas : HTMLCanvasElement) (s : State)
  : bool :=
  match detected s, getImageData canvas with
  | _ :: _, Returned imageData =>
      negb (matrixYields imageData) && linearYields canvas
  | _, _ => false
  end.

(** The same for the canvas [detectFromImageFile] draws the file on. *)
Definition fileReachesSubscribers (file : File) (s : State) : bool :=
  offscreen2d &&
  match loadImage file with
  | Some img => reachesSubscribers (drawn img) s
  | None => false
  end.

(** ** Properties of the lifecycle *)

Lemma initializeCamera_ready (elementId : string) (err : option JsError)
    (s : State) :
  isInitialized s = true ->
  initializeCamera elementId err s = (Fulfilled true, s, []).
Proof.
  intros Hs. unfold initializeCamera, bind, gets. rewrite Hs. reflexivity.
Qed.

Lemma initializeCamera_fresh_ok (elementId : string) (s : State) :
  isInitialized s = false ->
  initializeCamera elementId None s =
  (Fulfilled true,
   {| isInitialized := true; running := running s; detected := detected s |},
   [QuaggaInit (initConfig elementId)]).
Proof.
  intros Hs. unfold initializeCamera, bind, gets. rewrite Hs. reflexivity.
Qed.

Lemma initializeCamera_fresh_error (elementId : string) (e : JsError)
    (s : State) :
  isInitialized s = false ->
  initializeCamera elementId (Some e) s =
  (Rejected e, s, [QuaggaInit (initConfig elementId)]).
Proof.
  intros Hs. unfold initializeCamera, bind, gets. rewrite Hs. reflexivity.
Qed.

(** No path of [initializeCamera] fulfils its promise with [false]: the
    [return false] of line 68 is never reached. *)
Lemma initializeCamera_never_false (elementId : string)
    (err : option JsError) (s : State) :
  value (initializeCamera elementId err s) <> Fulfilled false.
Proof.
  destruct (isInitialized s) eqn:Hs.
  - rewrite initializeCamera_ready by assumption. discriminate.
  - destruct err as [e|].
    + rewrite initializeCamera_fresh_error by assumption. discriminate.
    + rewrite initializeCamera_fresh_ok by assumption. discriminate.
Qed.

Lemma stopCameraDetection_idle (s : State) :
  isInitialized s = false -> stopCameraDetection s = (tt, s, []).
Proof.
  intros Hs. unfold stopCameraDetection, bind, gets. rewrite Hs. reflexivity.
Qed.

Lemma stopCameraDetection_ready (s : State) :
  isInitialized s = true ->
  stopCameraDetection s =
  (tt, {| isInitialized := true; running := false; detected := [] |},
   [QuaggaStop; QuaggaOffDetected]).
Proof.
  intros Hs. unfold stopCameraDetection, bind, gets. rewrite Hs. cbn.
  rewrite Hs. reflexivity.
Qed.

Lemma cleanup_unfold (s : State) :
  cleanup s =
  (tt,
   {| isInitialized := false;
      running := running (state (stopCameraDetection s));
      detected := detected (state (stopCameraDetection s)) |},
   output (stopCameraDetection s)).
Proof.
  unfold cleanup, bind, modify.
  destruct (stopCameraDetection s) as [[[] s1] o1]. cbn.
  rewrite app_nil_r. reflexivity.
Qed.

Lemma cleanup_not_initialized (s : State) :
  isInitialized (state (cleanup s)) = false.
Proof. rewrite cleanup_unfold. reflexivity. Qed.

Lemma startCameraDetection_idle (onDetected : Callback) (s : State) :
  isInitialized s = false ->
  startCameraDetection onDetected s =
  (tt, s, [Invoke onDetected (failure "Camera not initialized")]).
Proof.
  intros Hs. unfold startCameraDetection, bind, gets. rewrite Hs. reflexivity.
Qed.

Lemma startCameraDetection_ready (onDetected : Callback) (s : State) :
  isInitialized s = true ->
  startCameraDetection onDetected s =
  (tt,
   {| isInitialized := true; running := true;
      detected := detected s ++ [DetectedHandler onDetected] |},
   [QuaggaStart; QuaggaOnDetected (DetectedHandler onDetected)]).
Proof.
  intros Hs. unfold startCameraDetection, bind, gets. rewrite Hs. cbn.
  rewrite Hs. reflexivity.
Qed.

(** ** Properties of the two-decoder chain *)

Lemma decodePixels_matrix (canvas : HTMLCanvasElement) (imageData : ImageData)
    (qrCode : JsQR.QRCode) (s : State) :
  jsQR (data imageData) (width imageData) (height imageData) = Some qrCode ->
  JsQR.data qrCode <> "" ->
  decodePixels canvas imageData s =
  (Fulfilled (found (JsQR.data qrCode) "QR_CODE"), s, [JsQRCall imageData]).
Proof.
  intros Hqr Hne. unfold decodePixels, bind, emit. rewrite Hqr.
  unfold truthy. destruct (String.eqb_spec (JsQR.data qrCode) "") as [E|_].
  - contradiction.
  - reflexivity.
Qed.

Lemma decodePixels_linear (canvas : HTMLCanvasElement) (imageData : ImageData)
    (s : State) :
  matrixYields imageData = false ->
  decodePixels canvas imageData s =
  (Fulfilled (singleResult (decodeSingle (singleConfig (toDataURL canvas)))),
   s,
   [JsQRCall imageData; QuaggaDecodeSingle (singleConfig (toDataURL canvas))]).
Proof.
  unfold matrixYields, decodePixels, bind, emit. intros Hm.
  destruct (jsQR (data imageData) (width imageData) (height imageData))
    as [qrCode|].
  - rewrite Hm. reflexivity.
  - reflexivity.
Qed.

Lemma singleResult_none (canvas : HTMLCanvasElement) :
  linearYields canvas = false ->
  singleResult (decodeSingle (singleConfig (toDataURL canvas))) =
  failure "No barcode detected in image".
Proof.
  unfold linearYields, singleResult.
  destruct (decodeSingle (singleConfig (toDataURL canvas))) as [[[cr|]]|];
    intros H; [discriminate H | reflexivity | reflexivity].
Qed.

(** Neither one-shot method touches the state of the service. *)
Lemma decodePixels_state (canvas : HTMLCanvasElement) (imageData : ImageData)
    (s : State) :
  state (decodePixels canvas imageData s) = s.
Proof.
  unfold decodePixels, bind, emit.
  destruct (jsQR (data imageData) (width imageData) (height imageData))
    as [qrCode|]; [destruct (truthy (JsQR.data qrCode))|]; reflexivity.
Qed.

Lemma detectFromCanvas_state (canvas : HTMLCanvasElement) (s : State) :
  state (detectFromCanvas canvas s) = s.
Proof.
  unfold detectFromCanvas. destruct (has2d canvas); cbn; [|reflexivity].
  destruct (getImageData canvas); [apply decodePixels_state | reflexivity].
Qed.

Lemma detectFromImageFile_state (file : File) (s : State) :
  state (detectFromImageFile file s) = s.
Proof.
  unfold detectFromImageFile. destruct offscreen2d; cbn; [|reflexivity].
  destruct (loadImage file) as [img|]; [|reflexivity].
  destruct (getImageData (drawn img));
    [apply decodePixels_state | reflexivity].
Qed.

Lemma forget_state {A : Type} (m : M A) (s : State) :
  state (forget m s) = state (m s).
Proof.
  unfold forget, bind, ret. destruct (m s) as [[a s1] o1]. reflexivity.
Qed.

Lemma forget_output {A : Type} (m : M A) (s : State) :
  output (forget m s) = output (m s).
Proof.
  unfold forget, bind, ret. destruct (m s) as [[a s1] o1]. cbn.
  apply app_nil_r.
Qed.

(** ** Properties of the live pipeline *)

Lemma publish_spec (hs : list Handler) (cr : Quagga.CodeResult) (s : State) :
  publish hs cr s = (tt, s, map (deliver cr) hs).
Proof.
  induction hs as [|h rest IH]; [reflexivity|].
  cbn [publish map]. unfold bind. destruct h as [cb]. cbn.
  rewrite IH. reflexivity.
Qed.

Lemma frame_spec (f : ImageData) (s : State) :
  frame f s =
  (tt, s,
   if running s then
     match liveDecode f with
     | Some cr => map (deliver cr) (detected s)
     | None => []
     end
   else []).
Proof.
  unfold frame, bind, gets. destruct (running s); [|reflexivity].
  destruct (liveDecode f) as [cr|]; [|reflexivity].
  cbn. rewrite publish_spec. reflexivity.
Qed.

(** ** The invariant of a session *)

Lemma step_preserves_Idle (op : Op) (s : State) :
  Idle s -> Idle (state (step op s)).
Proof.
  intros Hidle. destruct op as [el err|cb| |file|canvas| |f]; cbn [step].
  - rewrite forget_state. destruct (isInitialized s) eqn:Hs.
    + rewrite initializeCamera_ready by assumption. exact Hidle.
    + destruct err as [e|].
      * rewrite initializeCamera_fresh_error by assumption. exact Hidle.
      * rewrite initializeCamera_fresh_ok by assumption.
        intros H. discriminate H.
  - destruct (isInitialized s) eqn:Hs.
    + rewrite startCameraDetection_ready by assumption.
      intros H. discriminate H.
    + rewrite startCameraDetection_idle by assumption. exact Hidle.
  - destruct (isInitialized s) eqn:Hs.
    + rewrite stopCameraDetection_ready by assumption.
      intros H. discriminate H.
    + rewrite stopCameraDetection_idle by assumption. exact Hidle.
  - rewrite forget_state, detectFromImageFile_state. exact Hidle.
  - rewrite forget_state, detectFromCanvas_state. exact Hidle.
  - rewrite cleanup_unfold. destruct (isInitialized s) eqn:Hs.
    + rewrite stopCameraDetection_ready by assumption.
      intros _. split; reflexivity.
    + rewrite stopCameraDetection_idle by assumption.
      intros _. exact (Hidle Hs).
  - rewrite frame_spec. exact Hidle.
Qed.

Lemma Reachable_Idle (s : State) : Reachable s -> Idle s.
Proof.
  induction 1 as [|s op _ IH].
  - intros _. split; reflexivity.
  - apply step_preserves_Idle. exact IH.
Qed.

Lemma cleanup_state_initial (s : State) :
  Reachable s -> state (cleanup s) = initial.
Proof.
  intros Hr. rewrite cleanup_unfold. destruct (isInitialized s) eqn:Hs.
  - rewrite stopCameraDetection_ready by assumption. reflexivity.
  - rewrite stopCameraDetection_idle by assumption.
    destruct (Reachable_Idle s Hr Hs) as [Hrun Hdet].
    cbn. rewrite Hrun, Hdet. reflexivity.
Qed.

Lemma deliveries_app (o1 o2 : list Event) :
  deliveries (o1 ++ o2) = deliveries o1 ++ deliveries o2.
Proof.
  induction o1 as [|e rest IH]; [reflexivity|].
  destruct e; cbn; rewrite IH; reflexivity.
Qed.

Lemma deliveries_deliver (cr : Quagga.CodeResult) (hs : list Handler) :
  deliveries (map (deliver cr) hs) =
  map (fun _ => found (Quagga.code cr) (Quagga.format cr)) hs.
Proof.
  induction hs as [|[cb] rest IH]; [reflexivity|].
  cbn. rewrite IH. reflexivity.
Qed.

Lemma populated_found (c f : string) : populated (found c f).
Proof.
  unfold populated, found. cbn. repeat split; eexists; reflexivity.
Qed.

Lemma frame_deliveries_populated (f : ImageData) (s : State) :
  Forall populated (deliveries (output (frame f s))).
Proof.
  rewrite frame_spec. cbn [output snd].
  destruct (running s); [|constructor].
  destruct (liveDecode f) as [cr|]; [|constructor].
  rewrite deliveries_deliver. apply Forall_forall. intros r Hin.
  apply in_map_iff in Hin. destruct Hin as [h [<- _]]. apply populated_found.
Qed.

(** A raised flag stays up, and every delivery is populated, through any
    operation other than [cleanup]. *)
Lemma step_streaming (op : Op) (s : State) :
  isInitialized s = true -> keepsFlag op = true ->
  isInitialized (state (step op s)) = true /\
  Forall populated (deliveries (output (step op s))).
Proof.
  intros Hs Hop.
  destruct op as [el err|cb| |file|canvas| |f]; cbn [step].
  - rewrite forget_state, forget_output, initializeCamera_ready by assumption.
    split; [assumption | constructor].
  - rewrite startCameraDetection_ready by assumption.
    split; [reflexivity | constructor].
  - rewrite stopCameraDetection_ready by assumption.
    split; [reflexivity | constructor].
  - rewrite forget_state, forget_output, detectFromImageFile_state.
    split; [assumption|].
    unfold detectFromImageFile. destruct offscreen2d; [|constructor].
    cbn. destruct (loadImage file) as [img|]; [|constructor].
    destruct (getImageData (drawn img)) as [px|e]; [|constructor].
    unfold decodePixels, bind, emit.
    destruct (jsQR (data px) (width px) (height px)) as [q|];
      [destruct (truthy (JsQR.data q))|]; constructor.
  - rewrite forget_state, forget_output, detectFromCanvas_state.
    split; [assumption|].
    unfold detectFromCanvas. destruct (has2d canvas); [|constructor].
    cbn. destruct (getImageData canvas) as [px|e]; [|constructor].
    unfold decodePixels, bind, emit.
    destruct (jsQR (data px) (width px) (height px)) as [q|];
      [destruct (truthy (JsQR.data q))|]; constructor.
  - discriminate Hop.
  - split; [rewrite frame_spec; assumption|].
    apply frame_deliveries_populated.
Qed.

Lemma run_streaming (ops : list Op) (s : State) :
  isInitialized s = true -> forallb keepsFlag ops = true ->
  Forall populated (deliveries (output (run ops s))).
Proof.
  revert s. induction ops as [|op rest IH]; intros s Hs Hops.
  - constructor.
  - cbn in Hops. apply andb_prop in Hops. destruct Hops as [Hop Hrest].
    destruct (step_streaming op s Hs Hop) as [Hs1 Hd1].
    specialize (IH (state (step op s)) Hs1 Hrest).
    cbn [run]. unfold bind.
    destruct (step op s) as [[[] s1] o1]. cbn in *.
    destruct (run rest s1) as [[[] s2] o2]. cbn in *.
    rewrite deliveries_app. apply Forall_app. split; assumption.
Qed.

Lemma starts_spec (cbs : list Callback) (s : State) :
  isInitialized s = true ->
  state (run (map StartCameraDetection cbs) s) =
  {| isInitialized := true;
     running := match cbs with [] => running s | _ => true end;
     detected := detected s ++ map DetectedHandler cbs |}.
Proof.
  revert s. induction cbs as [|cb rest IH]; intros s Hs.
  - cbn. rewrite app_nil_r. destruct s; cbn in *. subst. reflexivity.
  - cbn [map run step]. unfold bind.
    rewrite startCameraDetection_ready by assumption.
    specialize (IH {| isInitialized := true; running := true;
                      detected := detected s ++ [DetectedHandler cb] |}
                   eq_refl).
    destruct (run (map StartCameraDetection rest) _) as [[[] s2] o2].
    cbn in *. rewrite IH. rewrite <- app_assoc. cbn.
    destruct rest; reflexivity.
Qed.

(** An exception of [getImageData] inside [onload] is outside the [try] of
    [detectFromImageFile]: the promise is left pending. *)
Lemma detectFromImageFile_pixel_exception (file : File)
    (img : HTMLImageElement) (e : JsError) (s : State) :
  offscreen2d = true -> loadImage file = Some img ->
  getImageData (drawn img) = Threw e ->
  detectFromImageFile file s = (Pending, s, []).
Proof.
  intros Hctx Himg Hpx. unfold detectFromImageFile.
  rewrite Hctx, Himg, Hpx. reflexivity.
Qed.

(** ** Initialisation *)

(** C1. When Quagga reports a camera error to the callback of [init], the
    promise of [initializeCamera] is rejected with that error: here the
    permission error of a fresh session travels to the caller, with the flag
    left down.  No call of [initializeCamera] is fulfilled with [false]. *)
Theorem initializeCamera_error_is_rejected :
  initializeCamera "camera-container" (Some "NotAllowedError") initial =
  (Rejected "NotAllowedError", initial,
   [QuaggaInit (initConfig "camera-container")]) /\
  (forall elementId err s,
     value (initializeCamera elementId err s) <> Fulfilled false).
Proof.
  split.
  - apply initializeCamera_fresh_error. reflexivity.
  - apply initializeCamera_never_false.
Qed.

(** C7. [initializeCamera] is idempotent.  With the flag up, a call is
    fulfilled with [true] at once, changes nothing and does not call
    [Quagga.init].  Hence after a call fulfilled with [true], a second call
    is fulfilled with [true] as well, and the two together call
    [Quagga.init] at most once. *)
Theorem initializeCamera_idempotent (s : State) (elementId1 elementId2 : string)
    (err1 err2 : option JsError) :
  value (initializeCamera elementId1 err1 s) = Fulfilled true ->
  let first := initializeCamera elementId1 err1 s in
  let second := initializeCamera elementId2 err2 (state first) in
  (isInitialized s = true -> first = (Fulfilled true, s, [])) /\
  isInitialized (state first) = true /\
  second = (Fulfilled true, state first, []) /\
  acquisitions (output first ++ output second) <= 1.
Proof.
  intros Hfirst first second. subst first second.
  assert (Hup : isInitialized (state (initializeCamera elementId1 err1 s))
                = true).
  { destruct (isInitialized s) eqn:Hs.
    - rewrite initializeCamera_ready by assumption. assumption.
    - destruct err1 as [e|].
      + rewrite initializeCamera_fresh_error in Hfirst by assumption.
        discriminate Hfirst.
      + rewrite initializeCamera_fresh_ok by assumption. reflexivity. }
  split; [intros Hs; apply initializeCamera_ready; assumption|].
  split; [assumption|].
  rewrite (initializeCamera_ready elementId2 err2 _ Hup).
  split; [reflexivity|].
  cbn [output snd]. rewrite app_nil_r.
  destruct (isInitialized s) eqn:Hs.
  - rewrite initializeCamera_ready by assumption. cbn. lia.
  - destruct err1 as [e|].
    + rewrite initializeCamera_fresh_error by assumption. cbn. lia.
    + rewrite initializeCamera_fresh_ok by assumption. cbn. lia.
Qed.

(** ** Life cycle *)

(** C5. With the flag down, [startCameraDetection] calls the consumer's
    callback once, with the failure "Camera not initialized", calls nothing
    of Quagga and leaves the state as it was.  The flag is down in a fresh
    session, after an initialisation that failed and after [cleanup]. *)
Theorem startCameraDetection_not_initialized (s : State)
    (onDetected : Callback) :
  isInitialized s = false ->
  let refused (s0 : State) :=
    startCameraDetection onDetected s0 =
    (tt, s0, [Invoke onDetected (failure "Camera not initialized")]) in
  refused s /\
  refused initial /\
  (forall elementId e, refused (state (initializeCamera elementId (Some e) s))) /\
  (forall s0, refused (state (cleanup s0))).
Proof.
  intros Hs refused. subst refused. cbn beta.
  split; [|split; [|split]]; intros.
  - apply startCameraDetection_idle. assumption.
  - apply startCameraDetection_idle. reflexivity.
  - apply startCameraDetection_idle.
    rewrite initializeCamera_fresh_error by assumption. exact Hs.
  - apply startCameraDetection_idle. apply cleanup_not_initialized.
Qed.

(** C9. [cleanup] runs [stopCameraDetection] whatever the state and lowers
    the flag; in a session it ends in the state of a fresh session, so that
    whatever follows goes as in a fresh session.  When the flag was down,
    [cleanup] calls nothing of Quagga; on a fresh session it does nothing at
    all. *)
Theorem cleanup_resets (s : State) :
  Reachable s ->
  cleanup s = (tt, initial, output (stopCameraDetection s)) /\
  (isInitialized s = false -> output (cleanup s) = []) /\
  cleanup initial = (tt, initial, []) /\
  (forall ops, run ops (state (cleanup s)) = run ops initial).
Proof.
  intros Hr.
  assert (Hc : cleanup s = (tt, initial, output (stopCameraDetection s))).
  { pose proof (cleanup_state_initial s Hr) as Hst.
    rewrite cleanup_unfold in Hst. rewrite cleanup_unfold.
    unfold state at 1 in Hst. cbn [fst snd] in Hst.
    rewrite Hst. reflexivity. }
  split; [exact Hc|].
  split.
  - intros Hs. rewrite Hc. cbn [output snd].
    rewrite stopCameraDetection_idle by assumption. reflexivity.
  - split; [reflexivity|].
    intros ops. rewrite Hc. reflexivity.
Qed.

(** ** One-shot detection *)

(** C4. When jsQR finds a non-empty payload in the pixels read from the
    canvas, both one-shot methods are fulfilled with that payload under the
    format QR_CODE; the only decoder call in their output is the one to
    jsQR, so [Quagga.decodeSingle] is not called. *)
Theorem matrix_code_short_circuits (canvas : HTMLCanvasElement)
    (imageData : ImageData) (qrCode : JsQR.QRCode) (s : State) :
  getImageData canvas = Returned imageData ->
  jsQR (data imageData) (width imageData) (height imageData) = Some qrCode ->
  JsQR.data qrCode <> "" ->
  let answer :=
    (Fulfilled (found (JsQR.data qrCode) "QR_CODE"), s,
     [JsQRCall imageData]) in
  (has2d canvas = true -> detectFromCanvas canvas s = answer) /\
  (forall file img,
     offscreen2d = true -> loadImage file = Some img -> drawn img = canvas ->
     detectFromImageFile file s = answer) /\
  filter isLinearCall (output answer) = [].
Proof.
  intros Hpx Hqr Hne answer. subst answer.
  split; [|split; [|reflexivity]].
  - intros Hctx. unfold detectFromCanvas. rewrite Hctx, Hpx. cbn [negb].
    apply decodePixels_matrix; assumption.
  - intros file img Hctx Himg Hdrawn. unfold detectFromImageFile.
    rewrite Hctx, Himg, Hdrawn, Hpx. cbn [negb].
    apply decodePixels_matrix; assumption.
Qed.

(** C6. When jsQR finds nothing (or an empty payload) in the pixels read
    from the canvas and [Quagga.decodeSingle] reports no code result, both
    one-shot methods are fulfilled with the failure
    "No barcode detected in image", and nothing else in the result. *)
Theorem no_decoder_yields_no_barcode (canvas : HTMLCanvasElement)
    (imageData : ImageData) (s : State) :
  getImageData canvas = Returned imageData ->
  matrixYields imageData = false ->
  linearYields canvas = false ->
  let answer :=
    Fulfilled {| success := false; barcode := None;
                 error := Some "No barcode detected in image";
                 format := None |} in
  (has2d canvas = true -> value (detectFromCanvas canvas s) = answer) /\
  (forall file img,
     offscreen2d = true -> loadImage file = Some img -> drawn img = canvas ->
     value (detectFromImageFile file s) = answer).
Proof.
  intros Hpx Hm Hl answer. subst answer. split.
  - intros Hctx. unfold detectFromCanvas. rewrite Hctx, Hpx. cbn [negb].
    rewrite decodePixels_linear by assumption. cbn [value fst].
    rewrite singleResult_none by assumption. reflexivity.
  - intros file img Hctx Himg Hdrawn. unfold detectFromImageFile.
    rewrite Hctx, Himg, Hdrawn, Hpx. cbn [negb].
    rewrite decodePixels_linear by assumption. cbn [value fst].
    rewrite singleResult_none by assumption. reflexivity.
Qed.

(** X21. A failure to get a 2D context, a failure to load the image of a
    file, and an exception while reading the pixels of the canvas handed to
    [detectFromCanvas] each end in a fulfilled promise that carries
    [success = false] and a message for that failure; no decoder is called
    and the state is untouched. *)
Theorem detection_failures_are_results (s : State) :
  (forall canvas,
     has2d canvas = false ->
     detectFromCanvas canvas s =
     (Fulfilled (failure "Could not get canvas context"), s, [])) /\
  (forall canvas e,
     has2d canvas = true -> getImageData canvas = Threw e ->
     detectFromCanvas canvas s =
     (Fulfilled (failure "Failed to process canvas"), s, [])) /\
  (forall file,
     offscreen2d = false ->
     detectFromImageFile file s =
     (Fulfilled (failure "Could not get canvas context"), s, [])) /\
  (forall file,
     offscreen2d = true -> loadImage file = None ->
     detectFromImageFile file s =
     (Fulfilled (failure "Could not load image"), s, [])).
Proof.
  split; [|split; [|split]].
  - intros canvas Hctx. unfold detectFromCanvas. rewrite Hctx. reflexivity.
  - intros canvas e Hctx Hpx. unfold detectFromCanvas.
    rewrite Hctx, Hpx. reflexivity.
  - intros file Hctx. unfold detectFromImageFile. rewrite Hctx. reflexivity.
  - intros file Hctx Himg. unfold detectFromImageFile.
    rewrite Hctx, Himg. reflexivity.
Qed.

(** ** The live stream *)

(** C2, as the code has it.  Every call of [startCameraDetection] with the
    flag up subscribes one more handler: after the calls for the callbacks
    [cbs] on a state with no subscription, the subscriptions are exactly
    those of [cbs], in order, and a frame in which the pipeline decodes a
    code calls each of them once.  With one call there is one subscription
    and one delivery for each detection.  [stopCameraDetection] removes
    all of them. *)
Theorem startCameraDetection_subscribes_each_time (s : State)
    (cbs : list Callback) :
  isInitialized s = true ->
  detected s = [] ->
  let s' := state (run (map StartCameraDetection cbs) s) in
  detected s' = map DetectedHandler cbs /\
  length (detected s') = length cbs /\
  (forall f cr,
     liveDecode f = Some cr ->
     output (frame f s') =
     map (fun cb => Invoke cb (found (Quagga.code cr) (Quagga.format cr)))
         cbs) /\
  detected (state (stopCameraDetection s')) = [].
Proof.
  intros Hs Hdet s'. subst s'. rewrite starts_spec by assumption.
  cbn [detected]. rewrite Hdet. cbn [app].
  split; [reflexivity|]. split; [apply length_map|]. split.
  - intros f cr Hcr. rewrite frame_spec. cbn [output snd running detected].
    rewrite Hcr, map_map. destruct cbs as [|cb rest].
    + destruct (running s); reflexivity.
    + reflexivity.
  - rewrite stopCameraDetection_ready by reflexivity. reflexivity.
Qed.

(** C3, as the code has it.  A frame of the live stream goes through
    Quagga's pipeline only: jsQR is not called, a frame in which Quagga
    decodes nothing is dropped, and a decoded code is passed on, with the
    format Quagga reports, to every subscription. *)
Theorem streaming_uses_linear_decoder_only (f : ImageData) (s : State) :
  filter isMatrixCall (output (frame f s)) = [] /\
  deliveries (output (frame f s)) =
  (if running s then
     match liveDecode f with
     | Some cr =>
         map (fun _ => found (Quagga.code cr) (Quagga.format cr)) (detected s)
     | None => []
     end
   else []).
Proof.
  rewrite frame_spec. cbn [output snd].
  destruct (running s); [|split; reflexivity].
  destruct (liveDecode f) as [cr|]; [|split; reflexivity].
  split; [|apply deliveries_deliver].
  induction (detected s) as [|[cb] rest IH]; [reflexivity | exact IH].
Qed.

(** C10. From a state with the flag up, [startCameraDetection] followed by
    any operations other than [cleanup] calls the consumer's callbacks only
    with results that have [success = true], a barcode, a format and no
    error; and a frame in which the pipeline decodes nothing calls nobody. *)
Theorem streaming_deliveries_populated (s : State) (onDetected : Callback)
    (ops : list Op) :
  isInitialized s = true ->
  forallb keepsFlag ops = true ->
  Forall populated
    (deliveries (output (run (StartCameraDetection onDetected :: ops) s))) /\
  (forall f s', liveDecode f = None -> output (frame f s') = []).
Proof.
  intros Hs Hops. split.
  - apply run_streaming; [assumption|]. cbn [forallb keepsFlag].
    rewrite Hops. reflexivity.
  - intros f s' Hnone. rewrite frame_spec, Hnone. cbn.
    destruct (running s'); reflexivity.
Qed.

(** ** More on one-shot detection *)

Lemma decodePixels_found (canvas : HTMLCanvasElement) (imageData : ImageData)
    (cr : Quagga.CodeResult) (s : State) :
  matrixYields imageData = false ->
  decodeSingle (singleConfig (toDataURL canvas)) =
    Some {| Quagga.codeResult := Some cr |} ->
  decodePixels canvas imageData s =
  (Fulfilled (found (Quagga.code cr) (Quagga.format cr)), s,
   [JsQRCall imageData; QuaggaDecodeSingle (singleConfig (toDataURL canvas))]).
Proof.
  intros Hm Hl. rewrite decodePixels_linear by assumption.
  rewrite Hl. reflexivity.
Qed.

(** X1. When jsQR finds nothing in the pixels and [Quagga.decodeSingle]
    reports a code, both one-shot methods are fulfilled, in every state,
    with that code under the format Quagga names; their calls to the
    decoders are jsQR first, then Quagga once, with the data URL of the
    canvas and the six readers of a single decode. *)
Theorem linear_fallback_decodes (canvas : HTMLCanvasElement)
    (imageData : ImageData) (cr : Quagga.CodeResult) (s : State) :
  getImageData canvas = Returned imageData ->
  matrixYields imageData = false ->
  decodeSingle (singleConfig (toDataURL canvas)) =
    Some {| Quagga.codeResult := Some cr |} ->
  let answer :=
    Fulfilled {| success := true; barcode := Some (Quagga.code cr);
                 error := None; format := Some (Quagga.format cr) |} in
  let calls :=
    [JsQRCall imageData;
     QuaggaDecodeSingle
       {| Quagga.single_src := toDataURL canvas;
          Quagga.single_numOfWorkers := 0;
          Quagga.single_size := 800;
          Quagga.single_readers := singleReaders;
          Quagga.single_locate := true |}] in
  (has2d canvas = true ->
   value (detectFromCanvas canvas s) = answer /\
   decoderCalls (output (detectFromCanvas canvas s)) = calls) /\
  (forall file img,
     offscreen2d = true -> loadImage file = Some img -> drawn img = canvas ->
     value (detectFromImageFile file s) = answer /\
     decoderCalls (output (detectFromImageFile file s)) = calls).
Proof.
  intros Hpx Hm Hl answer calls. subst answer calls. split.
  - intros Hctx. unfold detectFromCanvas. rewrite Hctx, Hpx. cbn [negb].
    rewrite decodePixels_found with (cr := cr) by assumption.
    split; reflexivity.
  - intros file img Hctx Himg Hdrawn. unfold detectFromImageFile.
    rewrite Hctx, Himg, Hdrawn, Hpx. cbn [negb].
    rewrite decodePixels_found with (cr := cr) by assumption.
    split; reflexivity.
Qed.

Lemma decodePixels_any_state (canvas : HTMLCanvasElement)
    (imageData : ImageData) (s s' : State) :
  value (decodePixels canvas imageData s) =
  value (decodePixels canvas imageData s') /\
  output (decodePixels canvas imageData s) =
  output (decodePixels canvas imageData s').
Proof.
  unfold decodePixels, bind, emit.
  destruct (jsQR (data imageData) (width imageData) (height imageData))
    as [q|]; [destruct (truthy (JsQR.data q))|]; split; reflexivity.
Qed.

(** X2. The one-shot methods do not read the state of the service:
    whether or not the camera was initialised or started, in any two states
    they settle the same way, with the same result, and make the same calls
    to the two decoders. *)
Theorem detection_ignores_lifecycle (s s' : State) :
  (forall canvas,
     value (detectFromCanvas canvas s) = value (detectFromCanvas canvas s') /\
     decoderCalls (output (detectFromCanvas canvas s)) =
     decoderCalls (output (detectFromCanvas canvas s'))) /\
  (forall file,
     value (detectFromImageFile file s) =
     value (detectFromImageFile file s') /\
     decoderCalls (output (detectFromImageFile file s)) =
     decoderCalls (output (detectFromImageFile file s'))).
Proof.
  split.
  - intros canvas. unfold detectFromCanvas.
    destruct (has2d canvas); cbn [negb]; [|split; reflexivity].
    destruct (getImageData canvas) as [px|e]; [|split; reflexivity].
    destruct (decodePixels_any_state canvas px s s') as [Hv Ho].
    rewrite Hv, Ho. split; reflexivity.
  - intros file. unfold detectFromImageFile.
    destruct offscreen2d; cbn [negb]; [|split; reflexivity].
    destruct (loadImage file) as [img|]; [|split; reflexivity].
    destruct (getImageData (drawn img)) as [px|e]; [|split; reflexivity].
    destruct (decodePixels_any_state (drawn img) px s s') as [Hv Ho].
    rewrite Hv, Ho. split; reflexivity.
Qed.

Lemma wellFormed_found (c f : string) : wellFormed (found c f).
Proof.
  left. cbn. repeat split; eexists; reflexivity.
Qed.

Lemma wellFormed_failure (m : string) : m <> "" -> wellFormed (failure m).
Proof.
  intros Hm. right. cbn. repeat split. exists m. split; [reflexivity|exact Hm].
Qed.

Lemma wellFormed_singleResult (result : option Quagga.ResultObject) :
  wellFormed (singleResult result).
Proof.
  destruct result as [[[cr|]]|]; cbn;
    [apply wellFormed_found | | ]; apply wellFormed_failure; discriminate.
Qed.

Lemma decodePixels_wellFormed (canvas : HTMLCanvasElement)
    (imageData : ImageData) (s : State) (r : BarcodeDetectionResult) :
  value (decodePixels canvas imageData s) = Fulfilled r -> wellFormed r.
Proof.
  unfold decodePixels, bind, emit.
  destruct (jsQR (data imageData) (width imageData) (height imageData))
    as [q|]; [destruct (truthy (JsQR.data q))|]; cbn; intros H;
    injection H as <-;
    [apply wellFormed_found | | ]; apply wellFormed_singleResult.
Qed.

Lemma detectFromCanvas_wellFormed (canvas : HTMLCanvasElement) (s : State)
    (r : BarcodeDetectionResult) :
  value (detectFromCanvas canvas s) = Fulfilled r -> wellFormed r.
Proof.
  unfold detectFromCanvas. destruct (has2d canvas); cbn [negb].
  - destruct (getImageData canvas) as [px|e].
    + apply decodePixels_wellFormed.
    + cbn. intros H. injection H as <-.
      apply wellFormed_failure. discriminate.
  - cbn. intros H. injection H as <-.
    apply wellFormed_failure. discriminate.
Qed.

Lemma detectFromImageFile_wellFormed (file : File) (s : State)
    (r : BarcodeDetectionResult) :
  value (detectFromImageFile file s) = Fulfilled r -> wellFormed r.
Proof.
  unfold detectFromImageFile. destruct offscreen2d; cbn [negb].
  - destruct (loadImage file) as [img|].
    + destruct (getImageData (drawn img)) as [px|e].
      * apply decodePixels_wellFormed.
      * cbn. intros H. discriminate H.
    + cbn. intros H. injection H as <-.
      apply wellFormed_failure. discriminate.
  - cbn. intros H. injection H as <-.
    apply wellFormed_failure. discriminate.
Qed.

(** X3. Whatever a one-shot method is fulfilled with is either a success
    with a barcode, a format and no error, or a failure with a non-empty
    message and neither barcode nor format. *)
Theorem detection_results_well_formed (s : State)
    (r : BarcodeDetectionResult) :
  (forall canvas,
     value (detectFromCanvas canvas s) = Fulfilled r -> wellFormed r) /\
  (forall file,
     value (detectFromImageFile file s) = Fulfilled r -> wellFormed r).
Proof.
  split.
  - intros canvas. apply detectFromCanvas_wellFormed.
  - intros file. apply detectFromImageFile_wellFormed.
Qed.

(** ** More on the life cycle *)

Lemma populated_wellFormed (r : BarcodeDetectionResult) :
  populated r -> wellFormed r.
Proof.
  intros [Hs [He [Hb Hf]]]. left. repeat split; assumption.
Qed.

Lemma step_deliveries_wellFormed (op : Op) (s : State) :
  Forall wellFormed (deliveries (output (step op s))).
Proof.
  destruct (isInitialized s) eqn:Hs.
  - destruct op as [el err|cb| |file|canvas| |f];
      try (apply Forall_impl with (P := populated);
           [apply populated_wellFormed
           |match goal with
            | |- context [step ?o s] =>
                exact (proj2 (step_streaming o s Hs eq_refl))
            end]).
    cbn [step]. rewrite cleanup_unfold. cbn [output snd].
    rewrite stopCameraDetection_ready by assumption. constructor.
  - destruct op as [el err|cb| |file|canvas| |f]; cbn [step].
    + rewrite forget_output. destruct err as [e|].
      * rewrite initializeCamera_fresh_error by assumption. constructor.
      * rewrite initializeCamera_fresh_ok by assumption. constructor.
    + rewrite startCameraDetection_idle by assumption. cbn.
      constructor; [|constructor]. apply wellFormed_failure. discriminate.
    + rewrite stopCameraDetection_idle by assumption. constructor.
    + rewrite forget_output.
      unfold detectFromImageFile. destruct offscreen2d; [|constructor].
      cbn. destruct (loadImage file) as [img|]; [|constructor].
      destruct (getImageData (drawn img)) as [px|e]; [|constructor].
      unfold decodePixels, bind, emit.
      destruct (jsQR (data px) (width px) (height px)) as [q|];
        [destruct (truthy (JsQR.data q))|]; constructor.
    + rewrite forget_output.
      unfold detectFromCanvas. destruct (has2d canvas); [|constructor].
      cbn. destruct (getImageData canvas) as [px|e]; [|constructor].
      unfold decodePixels, bind, emit.
      destruct (jsQR (data px) (width px) (height px)) as [q|];
        [destruct (truthy (JsQR.data q))|]; constructor.
    + rewrite cleanup_unfold. cbn [output snd].
      rewrite stopCameraDetection_idle by assumption. constructor.
    + apply Forall_impl with (P := populated);
        [apply populated_wellFormed | apply frame_deliveries_populated].
Qed.

Lemma run_cons (op : Op) (rest : list Op) (s : State) :
  run (op :: rest) s =
  (tt, state (run rest (state (step op s))),
   output (step op s) ++ output (run rest (state (step op s)))).
Proof.
  cbn [run]. unfold bind. destruct (step op s) as [[[] s1] o1].
  cbn [state output fst snd].
  destruct (run rest s1) as [[[] s2] o2]. reflexivity.
Qed.

(** X4. Whatever the state and whatever happens, each result handed to a
    callback of the consumer, by the live pipeline or by a refused start, is
    either a success with a barcode, a format and no error, or a failure
    with a non-empty message and neither barcode nor format. *)
Theorem callbacks_get_well_formed_results (ops : list Op) (s : State) :
  Forall wellFormed (deliveries (output (run ops s))).
Proof.
  revert s. induction ops as [|op rest IH]; intros s.
  - constructor.
  - rewrite run_cons. cbn [output snd]. rewrite deliveries_app.
    apply Forall_app. split; [apply step_deliveries_wellFormed | apply IH].
Qed.

Lemma step_preserves_Consistent (op : Op) (s : State) :
  Consistent s -> Consistent (state (step op s)).
Proof.
  intros Hc.
  assert (Hquiet : Consistent {| isInitialized := false; running := false;
                                 detected := [] |}).
  { split; [split|]; cbn; intros H; [discriminate H | contradiction
                                     | discriminate H]. }
  destruct op as [el err|cb| |file|canvas| |f]; cbn [step].
  - rewrite forget_state. destruct (isInitialized s) eqn:Hs.
    + rewrite initializeCamera_ready by assumption. exact Hc.
    + destruct err as [e|].
      * rewrite initializeCamera_fresh_error by assumption. exact Hc.
      * rewrite initializeCamera_fresh_ok by assumption.
        destruct Hc as [Hiff _].
        split; [exact Hiff | intros _; reflexivity].
  - destruct (isInitialized s) eqn:Hs.
    + rewrite startCameraDetection_ready by assumption.
      split; [split|]; cbn; intros _; try reflexivity.
      destruct (detected s); discriminate.
    + rewrite startCameraDetection_idle by assumption. exact Hc.
  - destruct (isInitialized s) eqn:Hs.
    + rewrite stopCameraDetection_ready by assumption.
      split; [split|]; cbn; intros H;
        [discriminate H | contradiction | discriminate H].
    + rewrite stopCameraDetection_idle by assumption. exact Hc.
  - rewrite forget_state, detectFromImageFile_state. exact Hc.
  - rewrite forget_state, detectFromCanvas_state. exact Hc.
  - rewrite cleanup_unfold. destruct (isInitialized s) eqn:Hs.
    + rewrite stopCameraDetection_ready by assumption. exact Hquiet.
    + rewrite stopCameraDetection_idle by assumption.
      destruct Hc as [Hiff Hup]. cbn [state fst snd].
      destruct (running s) eqn:Hr.
      * specialize (Hup eq_refl). congruence.
      * split; [exact Hiff | intros H; discriminate H].
  - rewrite frame_spec. exact Hc.
Qed.

(** X5. In every state a session can reach, the live pipeline runs exactly
    when at least one callback is subscribed to it, and it runs only while
    [isInitialized] is up. *)
Theorem stream_runs_iff_subscribed (s : State) :
  Reachable s ->
  (running s = true <-> detected s <> []) /\
  (running s = true -> isInitialized s = true).
Proof.
  induction 1 as [|s op _ IH].
  - split; [split|]; cbn; intros H;
      [discriminate H | contradiction | discriminate H].
  - apply step_preserves_Consistent. exact IH.
Qed.

Lemma step_preserves_Quiet (op : Op) (s : State) :
  isStart op = false -> Quiet s ->
  Quiet (state (step op s)) /\ deliveries (output (step op s)) = [].
Proof.
  intros Hop [Hrun Hdet].
  destruct op as [el err|cb| |file|canvas| |f]; cbn [step].
  - rewrite forget_state, forget_output.
    destruct (isInitialized s) eqn:Hs.
    + rewrite initializeCamera_ready by assumption.
      split; [split; assumption | reflexivity].
    + destruct err as [e|].
      * rewrite initializeCamera_fresh_error by assumption.
        split; [split; assumption | reflexivity].
      * rewrite initializeCamera_fresh_ok by assumption.
        split; [split; assumption | reflexivity].
  - discriminate Hop.
  - destruct (isInitialized s) eqn:Hs.
    + rewrite stopCameraDetection_ready by assumption.
      split; [split; reflexivity | reflexivity].
    + rewrite stopCameraDetection_idle by assumption.
      split; [split; assumption | reflexivity].
  - rewrite forget_state, forget_output, detectFromImageFile_state.
    split; [split; assumption|].
    unfold detectFromImageFile. destruct offscreen2d; [|reflexivity].
    cbn. destruct (loadImage file) as [img|]; [|reflexivity].
    destruct (getImageData (drawn img)) as [px|e]; [|reflexivity].
    unfold decodePixels, bind, emit.
    destruct (jsQR (data px) (width px) (height px)) as [q|];
      [destruct (truthy (JsQR.data q))|]; reflexivity.
  - rewrite forget_state, forget_output, detectFromCanvas_state.
    split; [split; assumption|].
    unfold detectFromCanvas. destruct (has2d canvas); [|reflexivity].
    cbn. destruct (getImageData canvas) as [px|e]; [|reflexivity].
    unfold decodePixels, bind, emit.
    destruct (jsQR (data px) (width px) (height px)) as [q|];
      [destruct (truthy (JsQR.data q))|]; reflexivity.
  - rewrite cleanup_unfold. destruct (isInitialized s) eqn:Hs.
    + rewrite stopCameraDetection_ready by assumption.
      split; [split; reflexivity | reflexivity].
    + rewrite stopCameraDetection_idle by assumption.
      split; [split; assumption | reflexivity].
  - rewrite frame_spec. split; [split; assumption|].
    cbn [output snd]. rewrite Hrun. reflexivity.
Qed.

Lemma run_Quiet (ops : list Op) (s : State) :
  forallb (fun op => negb (isStart op)) ops = true -> Quiet s ->
  deliveries (output (run ops s)) = [].
Proof.
  revert s. induction ops as [|op rest IH]; intros s Hops Hq.
  - reflexivity.
  - cbn in Hops. apply andb_prop in Hops. destruct Hops as [Hop Hrest].
    apply negb_true_iff in Hop.
    destruct (step_preserves_Quiet op s Hop Hq) as [Hq1 Hd1].
    rewrite run_cons. cbn [output snd]. rewrite deliveries_app, Hd1.
    apply IH; assumption.
Qed.

(** X6. In a session, once [stopCameraDetection] or [cleanup] has run, no
    callback of the consumer is called, whatever frames the camera sees and
    whatever else is done, until [startCameraDetection] is called again. *)
Theorem stop_silences_callbacks (s : State) (ops : list Op) :
  Reachable s ->
  forallb (fun op => negb (isStart op)) ops = true ->
  deliveries (output (run ops (state (stopCameraDetection s)))) = [] /\
  deliveries (output (run ops (state (cleanup s)))) = [].
Proof.
  intros Hr Hops. split.
  - apply run_Quiet; [assumption|].
    destruct (isInitialized s) eqn:Hs.
    + rewrite stopCameraDetection_ready by assumption. split; reflexivity.
    + rewrite stopCameraDetection_idle by assumption.
      apply (Reachable_Idle s Hr Hs).
  - apply run_Quiet; [assumption|].
    rewrite (cleanup_state_initial s Hr). split; reflexivity.
Qed.

(** X7. With the flag up, [stopCameraDetection] followed by
    [startCameraDetection] leaves the new callback as the only subscription,
    however many were stacked before; a code the pipeline then decodes is
    delivered once, to that callback. *)
Theorem restart_replaces_subscriptions (s : State) (onDetected : Callback) :
  isInitialized s = true ->
  let s' := state (run [StopCameraDetection;
                        StartCameraDetection onDetected] s) in
  s' = {| isInitialized := true; running := true;
          detected := [DetectedHandler onDetected] |} /\
  (forall f cr,
     liveDecode f = Some cr ->
     output (frame f s') =
     [Invoke onDetected (found (Quagga.code cr) (Quagga.format cr))]).
Proof.
  intros Hs s'.
  assert (Hs' : s' = {| isInitialized := true; running := true;
                        detected := [DetectedHandler onDetected] |}).
  { subst s'. rewrite run_cons. cbn [state fst snd step].
    rewrite stopCameraDetection_ready by assumption.
    cbn [state fst snd]. rewrite run_cons. cbn [state fst snd step].
    rewrite startCameraDetection_ready by reflexivity. reflexivity. }
  split; [exact Hs'|].
  intros f cr Hcr. rewrite Hs', frame_spec. cbn [output snd running detected].
  rewrite Hcr. reflexivity.
Qed.

Lemma initializeCameraOn_returns (elementId : string) (err : option JsError)
    (s : State) :
  initializeCameraOn None elementId err s = initializeCamera elementId err s.
Proof. reflexivity. Qed.

Lemma initializeCameraOn_ready (lookup : option JsError) (elementId : string)
    (err : option JsError) (s : State) :
  isInitialized s = true ->
  initializeCameraOn lookup elementId err s = (Fulfilled true, s, []).
Proof.
  intros Hs. unfold initializeCameraOn, bind, gets. rewrite Hs. reflexivity.
Qed.

Lemma initializeCameraOn_throws (e : JsError) (elementId : string)
    (err : option JsError) (s : State) :
  isInitialized s = false ->
  initializeCameraOn (Some e) elementId err s = (Rejected e, s, []).
Proof.
  intros Hs. unfold initializeCameraOn, bind, gets. rewrite Hs. reflexivity.
Qed.

Lemma attempts_cons (elementId : string)
    (a : option JsError * option JsError)
    (rest : list (option JsError * option JsError)) (s : State) :
  attempts elementId (a :: rest) s =
  (tt,
   state (attempts elementId rest
            (state (initializeCameraOn (fst a) elementId (snd a) s))),
   output (initializeCameraOn (fst a) elementId (snd a) s) ++
   output (attempts elementId rest
             (state (initializeCameraOn (fst a) elementId (snd a) s)))).
Proof.
  destruct a as [lookup err]. cbn [attempts fst snd]. unfold bind at 1.
  pose proof (forget_state (initializeCameraOn lookup elementId err) s) as Hs.
  pose proof (forget_output (initializeCameraOn lookup elementId err) s)
    as Ho.
  destruct (forget (initializeCameraOn lookup elementId err) s)
    as [[[] s1] o1].
  cbn [state output fst snd] in Hs, Ho. subst s1 o1.
  destruct (attempts elementId rest _) as [[[] s2] o2]. reflexivity.
Qed.

(** X8. A failed initialisation is not remembered.  With the flag down,
    every call of [initializeCamera] that fails, because the element id is
    no selector or because Quagga answers with an error, leaves the state
    as it was; [Quagga.init] has been called once for each call whose lookup
    returned, and not at all for the others.  After any number of such
    failures a call whose lookup returns and that Quagga accepts raises the
    flag, and a call whose lookup throws is rejected and does not. *)
Theorem failed_initialisation_is_retried (s : State) (elementId : string)
    (answers : list (option JsError * option JsError)) :
  isInitialized s = false ->
  forallb fails answers = true ->
  let failures := attempts elementId answers s in
  state failures = s /\
  acquisitions (output failures) = length (filter lookedUp answers) /\
  initializeCameraOn None elementId None (state failures) =
  (Fulfilled true,
   {| isInitialized := true; running := running s; detected := detected s |},
   [QuaggaInit (initConfig elementId)]) /\
  (forall e err,
     initializeCameraOn (Some e) elementId err (state failures) =
     (Rejected e, s, [])).
Proof.
  intros Hs Hfail failures.
  assert (H : state failures = s /\
              acquisitions (output failures) =
              length (filter lookedUp answers)).
  { subst failures. induction answers as [|[lookup err] rest IH].
    - split; reflexivity.
    - cbn [forallb] in Hfail. apply andb_prop in Hfail.
      destruct Hfail as [Ha Hrest]. specialize (IH Hrest).
      rewrite attempts_cons. cbn [state output fst snd].
      destruct lookup as [e|].
      + rewrite initializeCameraOn_throws by assumption.
        cbn [state output fst snd app]. exact IH.
      + destruct err as [e|]; [|discriminate Ha].
        rewrite initializeCameraOn_returns.
        rewrite initializeCamera_fresh_error by assumption.
        cbn [state output fst snd]. destruct IH as [IHs IHa].
        split; [exact IHs|].
        unfold acquisitions in *. cbn. rewrite IHa. reflexivity. }
  destruct H as [Hst Hacq]. split; [exact Hst|]. split; [exact Hacq|].
  rewrite Hst. split.
  - rewrite initializeCameraOn_returns.
    apply initializeCamera_fresh_ok. assumption.
  - intros e err. apply initializeCameraOn_throws. assumption.
Qed.

(** X9. [stopCameraDetection] keeps the initialisation and [cleanup]
    discards it.  After a stop with the flag up, [initializeCamera] is
    fulfilled with [true] at once: it neither looks the element up nor calls
    [Quagga.init], whatever they would answer.  After [cleanup] it starts
    over: it is rejected without a call to [Quagga.init] when the lookup
    throws, and otherwise calls [Quagga.init] and settles by its answer. *)
Theorem stop_keeps_initialisation_cleanup_drops_it (s : State)
    (lookup : option JsError) (elementId : string) (err : option JsError) :
  isInitialized s = true ->
  initializeCameraOn lookup elementId err (state (stopCameraDetection s)) =
  (Fulfilled true, state (stopCameraDetection s), []) /\
  output (initializeCameraOn lookup elementId err (state (cleanup s))) =
  match lookup with
  | None => [QuaggaInit (initConfig elementId)]
  | Some _ => []
  end /\
  value (initializeCameraOn lookup elementId err (state (cleanup s))) =
  match lookup, err with
  | Some e, _ => Rejected e
  | None, Some e => Rejected e
  | None, None => Fulfilled true
  end.
Proof.
  intros Hs. split.
  - apply initializeCameraOn_ready.
    rewrite stopCameraDetection_ready by assumption. reflexivity.
  - rewrite cleanup_unfold.
    rewrite stopCameraDetection_ready by assumption. cbn [state fst snd].
    destruct lookup as [e|].
    + rewrite initializeCameraOn_throws by reflexivity. split; reflexivity.
    + rewrite initializeCameraOn_returns. destruct err as [e|].
      * rewrite initializeCamera_fresh_error by reflexivity.
        split; reflexivity.
      * rewrite initializeCamera_fresh_ok by reflexivity. split; reflexivity.
Qed.

(** ** The handlers of the component *)

Lemma truthy_nonempty (v : string) : truthy v = true -> v <> "".
Proof.
  unfold truthy. destruct (String.eqb_spec v "") as [E|E];
    [discriminate | intros _; exact E].
Qed.

Lemma orDefault_nonempty (o : option string) (d : string) :
  d <> "" -> orDefault o d <> "".
Proof.
  intros Hd. unfold orDefault. destruct o as [v|]; [|exact Hd].
  destruct (truthy v) eqn:Hv; [apply truthy_nonempty; exact Hv | exact Hd].
Qed.

Lemma orDefault_some (v d : string) : v <> "" -> orDefault (Some v) d = v.
Proof.
  intros Hv. unfold orDefault, truthy.
  destruct (String.eqb_spec v "") as [E|_]; [contradiction | reflexivity].
Qed.

Lemma actAll_app {I : Type} (a b : list (Action I)) (ui : Scanner I) :
  actAll (a ++ b) ui = actAll b (actAll a ui).
Proof. apply fold_left_app. Qed.

Lemma requests_app {I : Type} (a b : list (Action I)) :
  requests (a ++ b) = requests a ++ requests b.
Proof.
  induction a as [|x rest IH]; [reflexivity|].
  destruct x; cbn; rewrite IH; reflexivity.
Qed.

Lemma actAll_keeps_camera {I : Type} (actions : list (Action I))
    (ui : Scanner I) :
  forallb (fun a => negb (setsCamera a)) actions = true ->
  cameraActive (actAll actions ui) = cameraActive ui.
Proof.
  revert ui. induction actions as [|a rest IH]; intros ui H; [reflexivity|].
  cbn in H. apply andb_prop in H. destruct H as [Ha Hrest].
  cbn [actAll fold_left]. change (fold_left act rest (act ui a))
    with (actAll rest (act ui a)).
  rewrite IH by assumption. destruct a; try reflexivity. discriminate Ha.
Qed.

Lemma processBarcode_requests (b : string) (reply : Reply Item) :
  requests (processBarcode b reply) = [PostScan b].
Proof.
  unfold processBarcode.
  destruct reply as [e|ok e|ok [[item|] er ms]]; try destruct ok; reflexivity.
Qed.

Lemma processBarcode_keeps_camera (b : string) (reply : Reply Item) :
  forallb (fun a => negb (setsCamera a)) (processBarcode b reply) = true.
Proof.
  unfold processBarcode.
  destruct reply as [e|ok e|ok [[item|] er ms]]; try destruct ok; reflexivity.
Qed.

(** X10. Whatever the server answers, and also when it cannot be reached
    or its body cannot be read, [processBarcode] sends exactly one request,
    the POST of the barcode it was given, and ends with the loading flag
    down; it never touches the camera flags, the selected file or the scan
    mode. *)
Theorem processBarcode_always_settles (barcode : string)
    (reply : Reply Item) (ui : Scanner Item) :
  let ui' := actAll (processBarcode barcode reply) ui in
  requests (processBarcode barcode reply) = [PostScan barcode] /\
  isLoading ui' = false /\
  cameraActive ui' = cameraActive ui /\
  cameraInitialized ui' = cameraInitialized ui /\
  selectedFile ui' = selectedFile ui /\
  scanMode ui' = scanMode ui.
Proof.
  cbn zeta. split; [apply processBarcode_requests|].
  unfold processBarcode.
  destruct reply as [e|ok e|ok [[item|] er ms]]; try destruct ok;
    repeat split; reflexivity.
Qed.

(** X11. [processBarcode] adds an item only when the server answers ok
    with data: the item then goes to the front of the list, the input is
    emptied and the message names the item.  In every other case the list
    and the input stay as they were and the message is not empty: it is the
    error of the server when it sent a non-empty one. *)
Theorem processBarcode_outcome (barcode : string) (reply : Reply Item)
    (ui : Scanner Item) :
  let ui' := actAll (processBarcode barcode reply) ui in
  match accepted reply with
  | Some item =>
      scannedItems ui' = item :: scannedItems ui /\
      barcodeInput ui' = "" /\
      message ui' = ("Scanned: " ++ Types.name item)%string
  | None =>
      scannedItems ui' = scannedItems ui /\
      barcodeInput ui' = barcodeInput ui /\
      message ui' <> "" /\
      (forall ok result e,
         reply = Body ok result -> Types.error result = Some e -> e <> "" ->
         message ui' = e)
  end.
Proof.
  cbn zeta. unfold processBarcode, accepted.
  destruct reply as [e|ok e|ok [[item|] er ms]]; try destruct ok; cbn;
    try (repeat split; reflexivity);
    (split; [reflexivity|]; split; [reflexivity|]; split;
     [try discriminate; apply orDefault_nonempty; discriminate|]);
    intros ok' result e' Heq Herr Hne; try discriminate Heq;
    injection Heq as _ <-; cbn in Herr; rewrite Herr;
    apply orDefault_some; exact Hne.
Qed.

(** X12. The two list requests fail silently.  [fetchItems] replaces the
    list by the data of an ok answer and otherwise changes nothing;
    [clearItems] empties the list and shows a non-empty message on an ok
    answer and otherwise changes nothing, not even the message.  Each sends
    its one request, and neither touches the loading flag. *)
Theorem list_requests_fail_silently (T : Type) (listReply : Reply (list Item))
    (clearReply : Reply T) (ui : Scanner Item) :
  requests (fetchItems listReply) = [GetItems] /\
  requests (clearItems clearReply : list (Action Item)) = [DeleteItems] /\
  match accepted listReply with
  | Some items =>
      scannedItems (actAll (fetchItems listReply) ui) = items /\
      message (actAll (fetchItems listReply) ui) = message ui
  | None => actAll (fetchItems listReply) ui = ui
  end /\
  (if answeredOk clearReply then
     scannedItems (actAll (clearItems clearReply) ui) = [] /\
     message (actAll (clearItems clearReply) ui) <> ""
   else actAll (clearItems clearReply) ui = ui) /\
  isLoading (actAll (fetchItems listReply) ui) = isLoading ui /\
  isLoading (actAll (clearItems clearReply) ui) = isLoading ui.
Proof.
  unfold fetchItems, clearItems, accepted, answeredOk.
  destruct ui as [bi si il ms ca sf sm ci].
  destruct listReply as [e|ok e|ok [[items|] er me]]; try destruct ok;
    destruct clearReply as [e'|ok' e'|ok' r']; try destruct ok'; cbn;
    repeat split; try reflexivity;
    apply orDefault_nonempty; discriminate.
Qed.

(** X13. [handleBarcodeScan] does nothing for a key other than Enter; on
    Enter it sends a request only when the trimmed input is not empty, and
    the request carries the trimmed input. *)
Theorem handleBarcodeScan_sends_trimmed_input (key input : string)
    (reply : Reply Item) :
  (String.eqb key "Enter" = false ->
   handleBarcodeScan key input reply = []) /\
  requests (handleBarcodeScan key input reply) =
  (if String.eqb key "Enter" && truthy (trim input)
   then [PostScan (trim input)] else []).
Proof.
  unfold handleBarcodeScan. destruct (String.eqb key "Enter"); cbn.
  - split; [discriminate|].
    destruct (truthy (trim input)); [apply processBarcode_requests|reflexivity].
  - split; reflexivity.
Qed.

Lemma bind_ret {A B : Type} (m : M A) (f : A -> B) (s : State) :
  bind m (fun x => ret (f x)) s =
  (f (value (m s)), state (m s), output (m s)).
Proof.
  unfold bind, ret. destruct (m s) as [[a s1] o1]. cbn.
  rewrite app_nil_r. reflexivity.
Qed.

Lemma usable_failure (r : BarcodeDetectionResult) :
  success r = false -> usable r = None.
Proof. intros H. unfold usable. rewrite H. reflexivity. Qed.

Lemma wellFormed_failure_message (r : BarcodeDetectionResult) :
  wellFormed r -> success r = false ->
  exists m, error r = Some m /\ m <> "".
Proof.
  intros [[Hs _]|[_ [_ [_ Hm]]]] Hf; [congruence | exact Hm].
Qed.

(** X14. [uploadAndScan] with no file selected only shows a message: it
    calls no decoder and sends nothing.  With a file on which the detection
    is fulfilled with a failure, it sends nothing either, shows exactly the
    message of that failure, keeps the selection and the list, and ends with
    the loading flag down. *)
Theorem uploadAndScan_without_barcode (file : File) (fileInputMounted : bool)
    (reply : Reply Item) (s : State) (ui : Scanner Item)
    (r : BarcodeDetectionResult) :
  value (detectFromImageFile file s) = Fulfilled r ->
  success r = false ->
  uploadAndScan None fileInputMounted reply s =
  (([setMessage "Please select an image file first"] : list (Action Item)),
   s, []) /\
  let actions :=
    value (uploadAndScan (Some file) fileInputMounted reply s) in
  requests actions = [] /\
  error r = Some (message (actAll actions ui)) /\
  selectedFile (actAll actions ui) = selectedFile ui /\
  scannedItems (actAll actions ui) = scannedItems ui /\
  isLoading (actAll actions ui) = false.
Proof.
  intros Hr Hfail. split; [reflexivity|].
  destruct (wellFormed_failure_message r
              (detectFromImageFile_wellFormed file s r Hr) Hfail)
    as [m [Hm Hne]].
  cbn zeta. unfold uploadAndScan. rewrite bind_ret. cbn [value fst].
  change (fst (fst (detectFromImageFile file s)))
    with (value (detectFromImageFile file s)).
  rewrite Hr, (usable_failure r Hfail), Hm, (orDefault_some m _ Hne).
  repeat split; reflexivity.
Qed.

(** X15. When the detection on the selected file gives a usable barcode,
    and Quagga does not hand a decode of its own to a callback of the live
    stream at the same time (nothing is subscribed, or the barcode is the
    one of jsQR), [uploadAndScan] posts exactly that barcode and then drops
    the selection and ends with the loading flag down, whatever the server
    answered; the list grows by the item of an accepted answer and is
    unchanged otherwise. *)
Theorem uploadAndScan_with_barcode (file : File) (fileInputMounted : bool)
    (reply : Reply Item) (s : State) (ui : Scanner Item)
    (r : BarcodeDetectionResult) (b : string) :
  fileReachesSubscribers file s = false ->
  value (detectFromImageFile file s) = Fulfilled r ->
  usable r = Some b ->
  let actions :=
    value (uploadAndScan (Some file) fileInputMounted reply s) in
  requests actions = [PostScan b] /\
  selectedFile (actAll actions ui) = None /\
  isLoading (actAll actions ui) = false /\
  scannedItems (actAll actions ui) =
  match accepted reply with
  | Some item => item :: scannedItems ui
  | None => scannedItems ui
  end.
Proof.
  intros _ Hr Hb. cbn zeta. unfold uploadAndScan. rewrite bind_ret.
  cbn [value fst].
  change (fst (fst (detectFromImageFile file s)))
    with (value (detectFromImageFile file s)).
  rewrite Hr, Hb. unfold processBarcode, accepted.
  destruct reply as [e|ok e|ok [[item|] er ms]]; try destruct ok;
    destruct fileInputMounted; repeat split; reflexivity.
Qed.

(** X16. When the pixels of the loaded image cannot be read (the
    exception is thrown inside [onload]), the promise of
    [detectFromImageFile] stays pending and [uploadAndScan] never gets past
    its [await]: it has raised the loading flag and shown its first message,
    and it neither sends a request nor lowers the flag. *)
Theorem uploadAndScan_stuck_on_unreadable_pixels (file : File)
    (img : HTMLImageElement) (e : JsError) (fileInputMounted : bool)
    (reply : Reply Item) (s : State) (ui : Scanner Item) :
  offscreen2d = true ->
  loadImage file = Some img ->
  getImageData (drawn img) = Threw e ->
  let actions :=
    value (uploadAndScan (Some file) fileInputMounted reply s) in
  value (detectFromImageFile file s) = Pending /\
  requests actions = [] /\
  isLoading (actAll actions ui) = true /\
  message (actAll actions ui) = "Scanning image...".
Proof.
  intros Hctx Himg Hpx. cbn zeta. unfold uploadAndScan. rewrite bind_ret.
  cbn [value fst].
  change (fst (fst (detectFromImageFile file s)))
    with (value (detectFromImageFile file s)).
  rewrite (detectFromImageFile_pixel_exception file img e s Hctx Himg Hpx).
  repeat split; reflexivity.
Qed.

(** X17. [captureAndScan] does nothing at all when the video or the canvas
    is not mounted or the canvas gives no 2D context.  Otherwise, when the
    detection is fulfilled and Quagga does not hand a decode of its own to a
    callback of the live stream at the same time (the barcode is the one of
    jsQR, or Quagga reports none, or nothing is subscribed), it ends with
    the loading flag down and sends at most one request, the POST of a
    usable barcode of the detection; without one it shows a non-empty
    message. *)
Theorem captureAndScan_outcome (videoMounted : bool)
    (canvasRef : option HTMLCanvasElement) (reply : Reply Item) (s : State)
    (ui : Scanner Item) :
  let result := captureAndScan videoMounted canvasRef reply s in
  (videoMounted &&
   match canvasRef with Some canvas => has2d canvas | None => false end
   = false ->
   result = ([], s, [])) /\
  (forall canvas r,
     videoMounted = true -> canvasRef = Some canvas -> has2d canvas = true ->
     reachesSubscribers canvas s = false ->
     value (detectFromCanvas canvas s) = Fulfilled r ->
     isLoading (actAll (value result) ui) = false /\
     match usable r with
     | Some b => requests (value result) = [PostScan b]
     | None => requests (value result) = [] /\
               message (actAll (value result) ui) <> ""
     end).
Proof.
  cbn zeta. split.
  - unfold captureAndScan.
    destruct videoMounted; cbn [negb andb]; [|reflexivity].
    destruct canvasRef as [canvas|]; [|reflexivity].
    destruct (has2d canvas); cbn [negb]; [discriminate | reflexivity].
  - intros canvas r -> -> Hctx _ Hr. unfold captureAndScan.
    rewrite Hctx. cbn [negb]. rewrite bind_ret. cbn [value fst].
    change (fst (fst (detectFromCanvas canvas s)))
      with (value (detectFromCanvas canvas s)).
    rewrite Hr. split.
    + destruct (usable r) as [b|]; [|reflexivity].
      rewrite !actAll_app. reflexivity.
    + destruct (usable r) as [b|].
      * cbn [app requests]. rewrite requests_app, processBarcode_requests.
        reflexivity.
      * split; [reflexivity|]. cbn. apply orDefault_nonempty. discriminate.
Qed.

Lemma startCamera_started (err : option JsError) (s : State) :
  value (initializeCamera "camera-container" err s) = Fulfilled true ->
  startCamera err s =
  (([setMessage "Initializing camera...";
     setCameraInitialized true;
     setCameraActive true;
     setMessage "Camera started. Point at a barcode to scan."]
    : list (Action Item)),
   {| isInitialized := true; running := true;
      detected := detected s ++ [DetectedHandler cameraCallback] |},
   output (initializeCamera "camera-container" err s) ++
   [QuaggaStart; QuaggaOnDetected (DetectedHandler cameraCallback)]).
Proof.
  intros Hok. unfold startCamera.
  destruct (isInitialized s) eqn:Hs.
  - unfold bind at 1. rewrite initializeCamera_ready by assumption.
    unfold bind. rewrite startCameraDetection_ready by assumption.
    reflexivity.
  - destruct err as [e|].
    + rewrite initializeCamera_fresh_error in Hok by assumption.
      discriminate Hok.
    + unfold bind at 1. rewrite initializeCamera_fresh_ok by assumption.
      unfold bind. rewrite startCameraDetection_ready by reflexivity.
      reflexivity.
Qed.

Lemma startCamera_refused (e : JsError) (s : State) :
  isInitialized s = false ->
  startCamera (Some e) s =
  (([setMessage "Initializing camera...";
     setMessage "Error accessing camera. Please check permissions."]
    : list (Action Item)),
   s, [QuaggaInit (initConfig "camera-container")]).
Proof.
  intros Hs. unfold startCamera, bind.
  rewrite initializeCamera_fresh_error by assumption. reflexivity.
Qed.

(** X18. [startCamera] has two outcomes.  When the flag is down and
    Quagga reports an error, the component shows
    "Error accessing camera. Please check permissions.", leaves its camera
    flags and the service as they were and subscribes nothing.  Otherwise it
    marks the camera active and subscribes its callback.  The message
    "Failed to initialize camera. Please check permissions." is never
    shown. *)
Theorem startCamera_outcomes (err : option JsError) (s : State)
    (ui : Scanner Item) :
  let result := startCamera err s in
  let ui' := actAll (value result) ui in
  message ui' <> "Failed to initialize camera. Please check permissions." /\
  match isInitialized s, err with
  | false, Some e =>
      state result = s /\
      cameraActive ui' = cameraActive ui /\
      cameraInitialized ui' = cameraInitialized ui /\
      message ui' = "Error accessing camera. Please check permissions."
  | _, _ =>
      state result =
      {| isInitialized := true; running := true;
         detected := detected s ++ [DetectedHandler cameraCallback] |} /\
      cameraActive ui' = true /\
      cameraInitialized ui' = true /\
      message ui' = "Camera started. Point at a barcode to scan."
  end.
Proof.
  cbn zeta. destruct (isInitialized s) eqn:Hs; [|destruct err as [e|]].
  - rewrite startCamera_started
      by (rewrite initializeCamera_ready by assumption; reflexivity).
    split; [discriminate|]. repeat split; reflexivity.
  - rewrite startCamera_refused by assumption.
    split; [discriminate|]. repeat split; reflexivity.
  - rewrite startCamera_started
      by (rewrite initializeCamera_fresh_ok by assumption; reflexivity).
    split; [discriminate|]. repeat split; reflexivity.
Qed.

(** ** The mounted component *)

Lemma handleBarcodeScan_keeps_camera (key input : string)
    (reply : Reply Item) :
  forallb (fun a => negb (setsCamera a))
          (handleBarcodeScan key input reply) = true.
Proof.
  unfold handleBarcodeScan. destruct (String.eqb key "Enter"); [|reflexivity].
  cbn. destruct (truthy (trim input)); [|reflexivity].
  apply processBarcode_keeps_camera.
Qed.

Lemma onCameraResults_keep_camera (results : list BarcodeDetectionResult)
    (reply : Reply Item) :
  forallb (fun a => negb (setsCamera a))
          (flat_map (fun result => onCameraResult result reply) results)
  = true.
Proof.
  induction results as [|r rest IH]; [reflexivity|].
  cbn [flat_map]. rewrite forallb_app, IH, andb_true_r.
  unfold onCameraResult. destruct (usable r);
    [apply processBarcode_keeps_camera | reflexivity].
Qed.

Lemma captureAndScan_quiet (videoMounted : bool)
    (canvasRef : option HTMLCanvasElement) (reply : Reply Item) (s : State) :
  state (captureAndScan videoMounted canvasRef reply s) = s /\
  forallb (fun a => negb (setsCamera a))
          (value (captureAndScan videoMounted canvasRef reply s)) = true.
Proof.
  unfold captureAndScan.
  destruct videoMounted; cbn [negb]; [|split; reflexivity].
  destruct canvasRef as [canvas|]; [|split; reflexivity].
  destruct (has2d canvas); cbn [negb]; [|split; reflexivity].
  rewrite bind_ret. cbn [state value fst snd].
  change (snd (fst (detectFromCanvas canvas s)))
    with (state (detectFromCanvas canvas s)).
  rewrite detectFromCanvas_state. split; [reflexivity|].
  destruct (value (detectFromCanvas canvas s)) as [r|e|];
    [|reflexivity|reflexivity].
  cbn [app forallb setsCamera negb andb]. rewrite forallb_app.
  cbn [forallb setsCamera negb andb]. rewrite andb_true_r.
  destruct (usable r); [apply processBarcode_keeps_camera | reflexivity].
Qed.

Lemma uploadAndScan_quiet (selected : option File) (fileInputMounted : bool)
    (reply : Reply Item) (s : State) :
  state (uploadAndScan selected fileInputMounted reply s) = s /\
  forallb (fun a => negb (setsCamera a))
          (value (uploadAndScan selected fileInputMounted reply s)) = true.
Proof.
  unfold uploadAndScan. destruct selected as [file|]; [|split; reflexivity].
  rewrite bind_ret. cbn [state value fst snd].
  change (snd (fst (detectFromImageFile file s)))
    with (state (detectFromImageFile file s)).
  rewrite detectFromImageFile_state. split; [reflexivity|].
  destruct (value (detectFromImageFile file s)) as [r|e|];
    [|reflexivity|reflexivity].
  cbn [app forallb setsCamera negb andb]. rewrite forallb_app.
  cbn [forallb setsCamera negb andb]. rewrite andb_true_r.
  destruct (usable r); [|reflexivity].
  rewrite !forallb_app, processBarcode_keeps_camera.
  destruct fileInputMounted; reflexivity.
Qed.

Lemma cameraSees_spec (f : ImageData) (reply : Reply Item)
    (ui : Scanner Item) (s : State) :
  handle (CameraSees f reply) ui s =
  (flat_map (fun result => onCameraResult result reply)
            (deliveries (output (frame f s))),
   s, output (frame f s)).
Proof.
  cbn [handle]. unfold listen, bind, ret. rewrite frame_spec.
  cbn. rewrite app_nil_r. reflexivity.
Qed.

(** A gesture other than the two camera buttons leaves the service as it
    was and does not call [setCameraActive]. *)
Lemma handle_quiet (g : Gesture) (ui : Scanner Item) (s : State) :
  isCameraButton g = false ->
  state (handle g ui s) = s /\
  forallb (fun a => negb (setsCamera a)) (value (handle g ui s)) = true.
Proof.
  intros Hg.
  destruct g as [mode|v|key reply|err| |vm cr reply|file|fm reply|reply
                |reply|f reply]; cbn [handle]; try discriminate Hg.
  - split; reflexivity.
  - destruct (isMode (scanMode ui) Manual && negb (isLoading ui));
      split; reflexivity.
  - destruct (isMode (scanMode ui) Manual && negb (isLoading ui));
      [|split; reflexivity].
    split; [reflexivity | apply handleBarcodeScan_keeps_camera].
  - destruct (isMode (scanMode ui) Camera && cameraActive ui
              && negb (isLoading ui));
      [apply captureAndScan_quiet | split; reflexivity].
  - destruct (isMode (scanMode ui) Upload && negb (isLoading ui));
      [|split; reflexivity].
    destruct file; split; reflexivity.
  - destruct (isMode (scanMode ui) Upload
              && match selectedFile ui with Some _ => true | None => false end
              && negb (isLoading ui));
      [apply uploadAndScan_quiet | split; reflexivity].
  - destruct (negb (isLoading ui)); [|split; reflexivity].
    split; [reflexivity|]. unfold fetchItems.
    destruct reply as [e|ok e|ok [[items|] er ms]]; try destruct ok;
      reflexivity.
  - destruct (negb (isLoading ui)); [|split; reflexivity].
    split; [reflexivity|]. unfold clearItems.
    destruct reply as [e|ok e|ok r]; try destruct ok; reflexivity.
  - change (handle (CameraSees f reply) ui s)
      with (handle (CameraSees f reply) ui s).
    pose proof (cameraSees_spec f reply ui s) as H. cbn [handle] in H.
    rewrite H. split; [reflexivity | apply onCameraResults_keep_camera].
Qed.

Lemma InStep_camera (ui ui' : Scanner Item) (s : State) :
  cameraActive ui' = cameraActive ui -> InStep ui s -> InStep ui' s.
Proof.
  unfold InStep. intros ->. exact (fun H => H).
Qed.

Lemma moment_preserves_InStep (m : Moment) (ui : Scanner Item) (s : State) :
  InStep ui s ->
  InStep (value (moment m ui s)) (state (moment m ui s)).
Proof.
  intros Hin. destruct m as [g|].
  - cbn [moment]. rewrite bind_ret. cbn [value state fst snd].
    change (snd (fst (handle g ui s))) with (state (handle g ui s)).
    change (fst (fst (handle g ui s))) with (value (handle g ui s)).
    destruct (isCameraButton g) eqn:Hg.
    + destruct g as [mode|v|key reply|err| |vm cr reply|file|fm reply|reply
                    |reply|f reply]; try discriminate Hg; cbn [handle].
      * destruct (isMode (scanMode ui) Camera); cbn [andb]; [|exact Hin].
        destruct (cameraActive ui) eqn:Hca; cbn [negb andb]; [exact Hin|].
        destruct (isLoading ui); cbn [negb]; [exact Hin|].
        pose proof Hin as [Hrun [Hdet Hup]]. rewrite Hca in Hdet.
        destruct (isInitialized s) eqn:Hs; [|destruct err as [e|]].
        -- rewrite startCamera_started
             by (rewrite initializeCamera_ready by assumption; reflexivity).
           unfold InStep. cbn. rewrite Hdet. repeat split.
        -- rewrite startCamera_refused by assumption.
           apply InStep_camera with (ui := ui); [reflexivity | exact Hin].
        -- rewrite startCamera_started
             by (rewrite initializeCamera_fresh_ok by assumption; reflexivity).
           unfold InStep. cbn. rewrite Hdet. repeat split.
      * destruct (isMode (scanMode ui) Camera); cbn [andb]; [|exact Hin].
        destruct (cameraActive ui) eqn:Hca; [|exact Hin].
        pose proof Hin as [Hrun [Hdet Hup]]. specialize (Hup Hca).
        unfold stopCamera. rewrite bind_ret.
        rewrite stopCameraDetection_ready by assumption.
        unfold InStep. cbn. repeat split; try (intros H; discriminate H).
    + destruct (handle_quiet g ui s Hg) as [Hst Hkeep]. rewrite Hst.
      apply InStep_camera with (ui := ui); [|assumption].
      apply actAll_keeps_camera. exact Hkeep.
  - cbn [moment]. rewrite bind_ret. cbn [value state fst snd].
    change (snd (fst (cleanup s))) with (state (cleanup s)).
    rewrite cleanup_unfold. destruct Hin as [Hrun [Hdet Hup]].
    destruct (isInitialized s) eqn:Hs.
    + rewrite stopCameraDetection_ready by assumption.
      unfold InStep. cbn. repeat split; try (intros H; discriminate H).
    + rewrite stopCameraDetection_idle by assumption.
      destruct (cameraActive ui) eqn:Hca.
      * specialize (Hup eq_refl). discriminate Hup.
      * unfold InStep. cbn.
        repeat split; try assumption; try (intros H; discriminate H).
Qed.

Lemma session_InStep (ms : list Moment) (ui : Scanner Item) (s : State) :
  InStep ui s ->
  InStep (value (session ms ui s)) (state (session ms ui s)).
Proof.
  revert ui s. induction ms as [|m rest IH]; intros ui s Hin.
  - exact Hin.
  - cbn [session]. unfold bind.
    pose proof (moment_preserves_InStep m ui s Hin) as H1.
    destruct (moment m ui s) as [[ui1 s1] o1]. cbn [value state fst snd] in H1.
    specialize (IH ui1 s1 H1).
    destruct (session rest ui1 s1) as [[ui2 s2] o2]. exact IH.
Qed.

Lemma InStep_mounted : InStep mounted initial.
Proof.
  repeat split; try (intros H; discriminate H).
Qed.

(** X19. Through any life of the component, starting from its first
    mount on a fresh service and with every handler run to its end, the
    service follows the component: the live pipeline runs exactly when the
    component shows the camera as active, and then the callback of the
    component is the only subscription; so at most one callback is ever
    subscribed. *)
Theorem component_keeps_one_subscription (ms : list Moment) :
  let result := session ms mounted initial in
  running (state result) = cameraActive (value result) /\
  detected (state result) =
    (if cameraActive (value result)
     then [DetectedHandler cameraCallback] else []) /\
  length (detected (state result)) <= 1.
Proof.
  cbn zeta.
  destruct (session_InStep ms mounted initial InStep_mounted)
    as [Hrun [Hdet _]].
  split; [exact Hrun|]. split; [exact Hdet|].
  rewrite Hdet. destruct (cameraActive _); cbn; lia.
Qed.

(** X20. In such a life, a camera frame makes the component send at most
    one request: the POST of the code Quagga decoded in it, when the camera
    is active and that code is not empty, and nothing otherwise. *)
Theorem one_request_per_detection (ms : list Moment) (f : ImageData)
    (reply : Reply Item) :
  let result := session ms mounted initial in
  requests (value (handle (CameraSees f reply) (value result)
                          (state result))) =
  (if cameraActive (value result) then
     match liveDecode f with
     | Some cr =>
         if truthy (Quagga.code cr) then [PostScan (Quagga.code cr)] else []
     | None => []
     end
   else []).
Proof.
  cbn zeta.
  destruct (session_InStep ms mounted initial InStep_mounted)
    as [Hrun [Hdet _]].
  rewrite cameraSees_spec. cbn [value fst]. rewrite frame_spec.
  cbn [output snd]. rewrite Hrun, Hdet.
  destruct (cameraActive _); [|reflexivity].
  destruct (liveDecode f) as [cr|]; [|reflexivity].
  cbn [map deliver deliveries flat_map]. rewrite app_nil_r.
  unfold onCameraResult, usable, found. cbn [success barcode].
  destruct (truthy (Quagga.code cr)); [|reflexivity].
  apply processBarcode_requests.
Qed.

End Service.

(** ** Concrete sessions

    The theorems above, applied to the browser and the decoders of [Demo];
    and the two sessions in which the live stream departs from the
    specification. *)

(** C8. An image file that loads but whose pixels cannot be read: the
    exception of [getImageData] is thrown inside [onload], outside the
    [try] of [detectFromImageFile], so the promise is never settled and
    no failure result is produced.  [detectFromCanvas] catches the same
    exception and is fulfilled with "Failed to process canvas". *)
Theorem detectFromImageFile_unreadable_pixels_never_settles :
  detectFromImageFile Demo.jsQR Demo.decodeSingle Demo.offscreen2d
    Demo.loadImage DemoUI.unreadable Demo.qrFile initial =
  (Pending, initial, []) /\
  detectFromCanvas Demo.jsQR Demo.decodeSingle Demo.taintedCanvas initial =
  (Fulfilled (failure "Failed to process canvas"), initial, []).
Proof.
  split.
  - apply detectFromImageFile_pixel_exception
      with (img := {| img_width := 1; img_height := 1;
                      img_pixels := data Demo.qrPixels |})
           (e := "SecurityError"); reflexivity.
  - reflexivity.
Qed.

Lemma initializeCamera_idempotent_witness :
  initializeCamera "camera-container" None initial =
  (Fulfilled true, Demo.ready, [QuaggaInit (initConfig "camera-container")]) /\
  initializeCamera "camera-container" (Some "NotAllowedError") Demo.ready =
  (Fulfilled true, Demo.ready, []).
Proof.
  split; [reflexivity|].
  exact (proj1 (proj2 (proj2
    (initializeCamera_idempotent initial "camera-container"
       "camera-container" None (Some "NotAllowedError") eq_refl)))).
Defined.

Lemma startCameraDetection_not_initialized_witness :
  startCameraDetection 7 initial =
  (tt, initial, [Invoke 7 (failure "Camera not initialized")]).
Proof.
  exact (proj1 (startCameraDetection_not_initialized initial 7 eq_refl)).
Defined.

Lemma cleanup_resets_witness :
  cleanup {| isInitialized := true; running := true;
             detected := [DetectedHandler 7] |} =
  (tt, initial, [QuaggaStop; QuaggaOffDetected]).
Proof.
  exact (proj1
    (cleanup_resets Demo.jsQR Demo.decodeSingle Demo.liveDecode
       Demo.offscreen2d Demo.loadImage Demo.drawn _
       (reach_step _ _ _ _ _ _ _ (StartCameraDetection 7)
          (reach_step _ _ _ _ _ _ _
             (InitializeCamera "camera-container" None)
             (reach_initial _ _ _ _ _ _))))).
Defined.

Lemma matrix_code_short_circuits_witness :
  detectFromCanvas Demo.jsQR Demo.decodeSingle
    (Demo.canvasOf Demo.qrPixels) initial =
  (Fulfilled (found "ITEM-42" "QR_CODE"), initial, [JsQRCall Demo.qrPixels]) /\
  detectFromImageFile Demo.jsQR Demo.decodeSingle Demo.offscreen2d
    Demo.loadImage Demo.drawn Demo.qrFile initial =
  (Fulfilled (found "ITEM-42" "QR_CODE"), initial, [JsQRCall Demo.qrPixels]).
Proof.
  destruct (matrix_code_short_circuits Demo.jsQR Demo.decodeSingle
              Demo.offscreen2d Demo.loadImage Demo.drawn
              (Demo.canvasOf Demo.qrPixels) Demo.qrPixels
              {| JsQR.data := "ITEM-42" |} initial
              eq_refl eq_refl ltac:(discriminate)) as [Hcanvas [Hfile _]].
  split.
  - exact (Hcanvas eq_refl).
  - exact (Hfile Demo.qrFile _ eq_refl eq_refl eq_refl).
Defined.

Lemma no_decoder_yields_no_barcode_witness :
  value (detectFromCanvas Demo.jsQR Demo.decodeSingle
           (Demo.canvasOf Demo.blankPixels) initial) =
  Fulfilled (failure "No barcode detected in image") /\
  value (detectFromImageFile Demo.jsQR Demo.decodeSingle Demo.offscreen2d
           Demo.loadImage Demo.drawn Demo.blankFile initial) =
  Fulfilled (failure "No barcode detected in image").
Proof.
  destruct (no_decoder_yields_no_barcode Demo.jsQR Demo.decodeSingle
              Demo.offscreen2d Demo.loadImage Demo.drawn
              (Demo.canvasOf Demo.blankPixels) Demo.blankPixels initial
              eq_refl eq_refl eq_refl) as [Hcanvas Hfile].
  split.
  - exact (Hcanvas eq_refl).
  - exact (Hfile Demo.blankFile _ eq_refl eq_refl eq_refl).
Defined.

Lemma detection_failures_are_results_witness :
  detectFromCanvas Demo.jsQR Demo.decodeSingle Demo.noContextCanvas initial =
  (Fulfilled (failure "Could not get canvas context"), initial, []) /\
  detectFromCanvas Demo.jsQR Demo.decodeSingle Demo.taintedCanvas initial =
  (Fulfilled (failure "Failed to process canvas"), initial, []) /\
  detectFromImageFile Demo.jsQR Demo.decodeSingle false
    Demo.loadImage Demo.drawn Demo.qrFile initial =
  (Fulfilled (failure "Could not get canvas context"), initial, []) /\
  detectFromImageFile Demo.jsQR Demo.decodeSingle Demo.offscreen2d
    Demo.loadImage Demo.drawn Demo.brokenFile initial =
  (Fulfilled (failure "Could not load image"), initial, []).
Proof.
  destruct (detection_failures_are_results Demo.jsQR Demo.decodeSingle
              Demo.offscreen2d Demo.loadImage Demo.drawn initial)
    as [Hctx [Hpx [_ Hload]]].
  destruct (detection_failures_are_results Demo.jsQR Demo.decodeSingle
              false Demo.loadImage Demo.drawn initial)
    as [_ [_ [Hoff _]]].
  split; [exact (Hctx Demo.noContextCanvas eq_refl)|].
  split; [exact (Hpx Demo.taintedCanvas _ eq_refl eq_refl)|].
  split; [exact (Hoff Demo.qrFile eq_refl)|].
  exact (Hload Demo.brokenFile eq_refl eq_refl).
Defined.

Lemma startCameraDetection_subscribes_each_time_witness :
  detected
    (state (run Demo.jsQR Demo.decodeSingle Demo.liveDecode Demo.offscreen2d
              Demo.loadImage Demo.drawn [StartCameraDetection 7] Demo.ready)) =
  [DetectedHandler 7] /\
  output (frame Demo.liveDecode Demo.eanPixels
            (state (run Demo.jsQR Demo.decodeSingle Demo.liveDecode
                      Demo.offscreen2d Demo.loadImage Demo.drawn
                      [StartCameraDetection 7] Demo.ready))) =
  [Invoke 7 (found "4006381333931" "ean_13")].
Proof.
  destruct (startCameraDetection_subscribes_each_time Demo.jsQR
              Demo.decodeSingle Demo.liveDecode Demo.offscreen2d
              Demo.loadImage Demo.drawn Demo.ready [7] eq_refl eq_refl)
    as [Hsubs [_ [Hframe _]]].
  split.
  - exact Hsubs.
  - exact (Hframe Demo.eanPixels Demo.ean eq_refl).
Defined.

Lemma streaming_deliveries_populated_witness :
  Forall populated
    (deliveries
       (output
          (run Demo.jsQR Demo.decodeSingle Demo.liveDecode Demo.offscreen2d
             Demo.loadImage Demo.drawn
             [StartCameraDetection 7; CameraFrame Demo.eanPixels;
              CameraFrame Demo.blankPixels; StopCameraDetection;
              StartCameraDetection 8; CameraFrame Demo.eanPixels]
             Demo.ready))).
Proof.
  exact (proj1
    (streaming_deliveries_populated Demo.jsQR Demo.decodeSingle
       Demo.liveDecode Demo.offscreen2d Demo.loadImage Demo.drawn
       Demo.ready 7
       [CameraFrame Demo.eanPixels; CameraFrame Demo.blankPixels;
        StopCameraDetection; StartCameraDetection 8;
        CameraFrame Demo.eanPixels]
       eq_refl eq_refl)).
Defined.

(** C2, as the specification has it, fails: a second
    [startCameraDetection] while the stream is on leaves two subscriptions,
    and one detection is then delivered twice. *)
Lemma second_start_stacks_callback :
  state (run Demo.jsQR Demo.decodeSingle Demo.liveDecode Demo.offscreen2d
           Demo.loadImage Demo.drawn
           [InitializeCamera "camera-container" None;
            StartCameraDetection 7; StartCameraDetection 7] initial) =
  {| isInitialized := true; running := true;
     detected := [DetectedHandler 7; DetectedHandler 7] |} /\
  deliveries
    (output (run Demo.jsQR Demo.decodeSingle Demo.liveDecode Demo.offscreen2d
               Demo.loadImage Demo.drawn
               [InitializeCamera "camera-container" None;
                StartCameraDetection 7; StartCameraDetection 7;
                CameraFrame Demo.eanPixels] initial)) =
  [found "4006381333931" "ean_13"; found "4006381333931" "ean_13"] /\
  ~ length (detected
      (state (run Demo.jsQR Demo.decodeSingle Demo.liveDecode Demo.offscreen2d
                Demo.loadImage Demo.drawn
                [InitializeCamera "camera-container" None;
                 StartCameraDetection 7; StartCameraDetection 7] initial)))
    <= 1.
Proof.
  split; [reflexivity|]. split; [reflexivity|]. cbn. lia.
Qed.

(** C3, as the specification has it, fails: on a frame that shows a QR
    code the chain of the specification yields the payload as QR_CODE, but
    the live stream neither calls jsQR nor delivers anything. *)
Lemma streaming_skips_matrix_decoder :
  specStreamingChain Demo.jsQR Demo.liveDecode Demo.qrPixels =
  Some (found "ITEM-42" "QR_CODE") /\
  output (run Demo.jsQR Demo.decodeSingle Demo.liveDecode Demo.offscreen2d
            Demo.loadImage Demo.drawn
            [InitializeCamera "camera-container" None;
             StartCameraDetection 7; CameraFrame Demo.qrPixels] initial) =
  [QuaggaInit (initConfig "camera-container"); QuaggaStart;
   QuaggaOnDetected (DetectedHandler 7)].
Proof.
  split; reflexivity.
Qed.

(** ** The further properties on concrete sessions *)

Lemma linear_fallback_decodes_witness :
  value (detectFromCanvas Demo.jsQR Demo.decodeSingle
           (Demo.canvasOf Demo.eanPixels) DemoUI.stacked) =
  Fulfilled (found "4006381333931" "ean_13") /\
  decoderCalls
    (output (detectFromCanvas Demo.jsQR Demo.decodeSingle
               (Demo.canvasOf Demo.eanPixels) DemoUI.stacked)) =
  [JsQRCall Demo.eanPixels;
   QuaggaDecodeSingle (singleConfig "data:image/png;base64,ean")].
Proof.
  exact (proj1
    (linear_fallback_decodes Demo.jsQR Demo.decodeSingle Demo.offscreen2d
       Demo.loadImage Demo.drawn (Demo.canvasOf Demo.eanPixels)
       Demo.eanPixels Demo.ean DemoUI.stacked eq_refl eq_refl eq_refl)
    eq_refl).
Defined.

Lemma detection_results_well_formed_witness :
  wellFormed (failure "Failed to process canvas").
Proof.
  exact (proj1
    (detection_results_well_formed Demo.jsQR Demo.decodeSingle
       Demo.offscreen2d Demo.loadImage Demo.drawn initial
       (failure "Failed to process canvas"))
    Demo.taintedCanvas eq_refl).
Defined.

Lemma stream_runs_iff_subscribed_witness :
  running DemoUI.stacked = true <-> detected DemoUI.stacked <> [].
Proof.
  exact (proj1
    (stream_runs_iff_subscribed Demo.jsQR Demo.decodeSingle Demo.liveDecode
       Demo.offscreen2d Demo.loadImage Demo.drawn DemoUI.stacked
       (reach_step _ _ _ _ _ _ _ (StartCameraDetection 7)
          (reach_step _ _ _ _ _ _ _ (StartCameraDetection 7)
             (reach_step _ _ _ _ _ _ _
                (InitializeCamera "camera-container" None)
                (reach_initial _ _ _ _ _ _)))))).
Defined.

Lemma stop_silences_callbacks_witness :
  deliveries
    (output
       (run Demo.jsQR Demo.decodeSingle Demo.liveDecode Demo.offscreen2d
          Demo.loadImage Demo.drawn
          [CameraFrame Demo.eanPixels;
           InitializeCamera "camera-container" None;
           CameraFrame Demo.eanPixels]
          (state (stopCameraDetection DemoUI.stacked)))) = [].
Proof.
  exact (proj1
    (stop_silences_callbacks Demo.jsQR Demo.decodeSingle Demo.liveDecode
       Demo.offscreen2d Demo.loadImage Demo.drawn DemoUI.stacked
       [CameraFrame Demo.eanPixels;
        InitializeCamera "camera-container" None;
        CameraFrame Demo.eanPixels]
       (reach_step _ _ _ _ _ _ _ (StartCameraDetection 7)
          (reach_step _ _ _ _ _ _ _ (StartCameraDetection 7)
             (reach_step _ _ _ _ _ _ _
                (InitializeCamera "camera-container" None)
                (reach_initial _ _ _ _ _ _))))
       eq_refl)).
Defined.

Lemma restart_replaces_subscriptions_witness :
  state (run Demo.jsQR Demo.decodeSingle Demo.liveDecode Demo.offscreen2d
           Demo.loadImage Demo.drawn
           [StopCameraDetection; StartCameraDetection 8] DemoUI.stacked) =
  {| isInitialized := true; running := true;
     detected := [DetectedHandler 8] |}.
Proof.
  exact (proj1
    (restart_replaces_subscriptions Demo.jsQR Demo.decodeSingle
       Demo.liveDecode Demo.offscreen2d Demo.loadImage Demo.drawn
       DemoUI.stacked 8 eq_refl)).
Defined.

Lemma failed_initialisation_is_retried_witness :
  acquisitions
    (output
       (attempts "camera-container"
          [(None, Some "NotAllowedError");
           (Some "SyntaxError", None);
           (None, Some "NotFoundError")]
          initial)) = 2%nat.
Proof.
  exact (proj1 (proj2
    (failed_initialisation_is_retried initial "camera-container"
       [(None, Some "NotAllowedError");
        (Some "SyntaxError", None);
        (None, Some "NotFoundError")]
       eq_refl eq_refl))).
Defined.

Lemma stop_keeps_initialisation_cleanup_drops_it_witness :
  initializeCameraOn (Some "SyntaxError") "" None
    (state (stopCameraDetection DemoUI.stacked)) =
  (Fulfilled true, Demo.ready, []) /\
  output (initializeCameraOn (Some "SyntaxError") "" None
            (state (cleanup DemoUI.stacked))) = [].
Proof.
  destruct (stop_keeps_initialisation_cleanup_drops_it DemoUI.stacked
              (Some "SyntaxError") "" None eq_refl) as [Hstop [Hout _]].
  split; [exact Hstop | exact Hout].
Defined.

Lemma processBarcode_outcome_witness :
  message (actAll (processBarcode Z "0000" DemoUI.unknown) mounted) =
  "Unknown barcode".
Proof.
  exact (proj2 (proj2 (proj2
    (processBarcode_outcome Z "0000" DemoUI.unknown mounted)))
    false _ "Unknown barcode" eq_refl eq_refl ltac:(discriminate)).
Defined.

Lemma handleBarcodeScan_sends_trimmed_input_witness :
  handleBarcodeScan Z DemoUI.trim "a" "4006381333931" DemoUI.known = [].
Proof.
  exact (proj1
    (handleBarcodeScan_sends_trimmed_input Z DemoUI.trim "a"
       "4006381333931" DemoUI.known) eq_refl).
Defined.

Lemma uploadAndScan_without_barcode_witness :
  error (failure "No barcode detected in image") =
  Some (message
          (actAll
             (value (uploadAndScan Demo.jsQR Demo.decodeSingle
                       Demo.offscreen2d Demo.loadImage Demo.drawn Z
                       (Some Demo.blankFile) true DemoUI.known initial))
             mounted)).
Proof.
  exact (proj1 (proj2 (proj2
    (uploadAndScan_without_barcode Demo.jsQR Demo.decodeSingle
       Demo.offscreen2d Demo.loadImage Demo.drawn Z Demo.blankFile true
       DemoUI.known initial mounted
       (failure "No barcode detected in image") eq_refl eq_refl)))).
Defined.

Lemma uploadAndScan_with_barcode_witness :
  requests
    (value (uploadAndScan Demo.jsQR Demo.decodeSingle Demo.offscreen2d
              Demo.loadImage Demo.drawn Z (Some Demo.qrFile) true
              DemoUI.unknown DemoUI.stacked)) = [PostScan "ITEM-42"] /\
  selectedFile
    (actAll
       (value (uploadAndScan Demo.jsQR Demo.decodeSingle Demo.offscreen2d
                 Demo.loadImage Demo.drawn Z (Some Demo.qrFile) true
                 DemoUI.unknown DemoUI.stacked))
       {| barcodeInput := ""; scannedItems := []; isLoading := false;
          message := ""; cameraActive := true;
          selectedFile := Some Demo.qrFile; scanMode := Upload;
          cameraInitialized := true |}) = None.
Proof.
  destruct (uploadAndScan_with_barcode Demo.jsQR Demo.decodeSingle
              Demo.offscreen2d Demo.loadImage Demo.drawn Z Demo.qrFile true
              DemoUI.unknown DemoUI.stacked
              {| barcodeInput := ""; scannedItems := []; isLoading := false;
                 message := ""; cameraActive := true;
                 selectedFile := Some Demo.qrFile; scanMode := Upload;
                 cameraInitialized := true |}
              (found "ITEM-42" "QR_CODE") "ITEM-42" eq_refl eq_refl eq_refl)
    as [Hreq [Hsel _]].
  split; [exact Hreq | exact Hsel].
Defined.

Lemma captureAndScan_outcome_witness :
  isLoading
    (actAll
       (value (captureAndScan Demo.jsQR Demo.decodeSingle Z true
                 (Some (Demo.canvasOf Demo.qrPixels)) DemoUI.known
                 DemoUI.stacked))
       mounted) = false /\
  requests
    (value (captureAndScan Demo.jsQR Demo.decodeSingle Z true
              (Some (Demo.canvasOf Demo.qrPixels)) DemoUI.known
              DemoUI.stacked)) = [PostScan "ITEM-42"].
Proof.
  exact (proj2
    (captureAndScan_outcome Demo.jsQR Demo.decodeSingle Z true
       (Some (Demo.canvasOf Demo.qrPixels)) DemoUI.known DemoUI.stacked
       mounted)
    (Demo.canvasOf Demo.qrPixels) (found "ITEM-42" "QR_CODE")
    eq_refl eq_refl eq_refl eq_refl eq_refl).
Defined.

Lemma uploadAndScan_stuck_on_unreadable_pixels_witness :
  isLoading
    (actAll
       (value (uploadAndScan Demo.jsQR Demo.decodeSingle Demo.offscreen2d
                 Demo.loadImage DemoUI.unreadable Z (Some Demo.qrFile) true
                 DemoUI.known initial))
       mounted) = true.
Proof.
  exact (proj1 (proj2 (proj2
    (uploadAndScan_stuck_on_unreadable_pixels Demo.jsQR Demo.decodeSingle
       Demo.offscreen2d Demo.loadImage DemoUI.unreadable Z Demo.qrFile
       {| img_width := 1; img_height := 1; img_pixels := data Demo.qrPixels |}
       "SecurityError" true DemoUI.known initial mounted
       eq_refl eq_refl eq_refl)))).
Defined.
